(** * OptimizelyClient: a shallow embedding of [lib/OptimizelyClient.js]

    The client turns a loosely typed [options] argument into one HTTP
    request.  Every method of the JavaScript source is embedded below as a
    function from the caller's argument to

    - what the call did: it threw synchronously, or it returned the deferred
      result of a request handed to the transport, and
    - the contents of the caller's argument after the call, because the
      source mutates the object it is given.

    Conventions of the embedding.

    - JavaScript values are the type [value].  Numbers are the integral
      doubles (identifiers are integers); strings are byte strings, read as
      UTF-8.  A plain object is its list of own properties in enumeration
      order; an array carries its elements and whatever named properties
      were added to it.
    - [VNum n] is the double of [n] for the safe integers, [|n| < 2^53]:
      there every integer is its own double and prints as its decimal
      digits.  Beyond them a double stands for several integers, and from
      [1e21] on it prints with an exponent.  The statements that pin a
      path or a body built from the caller's numbers assume [safe] of the
      argument.
    - The property names the client touches ([id], [project_id],
      [description], ...) are never array indices nor inherited members, so
      a property read on a primitive yields [undefined] and a write to a
      primitive is dropped (the source runs in sloppy mode).
    - [JSON.parse] belongs to the host; the one method that uses it takes it
      as a parameter. *)

From Stdlib Require Import ZArith List String Ascii Bool Lia DecimalString.
Import ListNotations.
Local Open Scope string_scope.
Local Open Scope Z_scope.

Set Implicit Arguments.
Local Set Warnings "-register-all".

(** ** JavaScript values *)

Inductive value : Type :=
| VUndef
| VNull
| VBool (b : bool)
| VNum (n : Z)
| VStr (s : string)
| VObj (props : list (string * value))
| VArr (elems : list value) (props : list (string * value)).

Definition props_t := list (string * value).

(** [typeof v] *)
Definition typeof (v : value) : string :=
  match v with
  | VUndef => "undefined"
  | VNull => "object"
  | VBool _ => "boolean"
  | VNum _ => "number"
  | VStr _ => "string"
  | VObj _ => "object"
  | VArr _ _ => "object"
  end.

(** ToBoolean: what [if (v)], [!v] and [v || w] test. *)
Definition truthy (v : value) : bool :=
  match v with
  | VUndef => false
  | VNull => false
  | VBool b => b
  | VNum n => negb (n =? 0)
  | VStr s => negb (s =? "")%string
  | VObj _ => true
  | VArr _ _ => true
  end.

(** [a || b] *)
Definition js_or (a b : value) : value := if truthy a then a else b.

(** Values held by reference. *)
Definition is_object (v : value) : bool :=
  match v with
  | VObj _ => true
  | VArr _ _ => true
  | _ => false
  end.

(** [undefined] and [null]: a property access on them is a TypeError. *)
Definition is_nullish (v : value) : bool :=
  match v with
  | VUndef => true
  | VNull => true
  | _ => false
  end.

(** ** Own properties, in enumeration order *)

Fixpoint lookup (k : string) (ps : props_t) : option value :=
  match ps with
  | [] => None
  | (k', v) :: rest => if (k' =? k)%string then Some v else lookup k rest
  end.

(** Assignment keeps the position of an existing key and appends a new one. *)
Fixpoint assign (k : string) (v : value) (ps : props_t) : props_t :=
  match ps with
  | [] => [(k, v)]
  | (k', v') :: rest =>
      if (k' =? k)%string then (k, v) :: rest else (k', v') :: assign k v rest
  end.

Fixpoint remove (k : string) (ps : props_t) : props_t :=
  match ps with
  | [] => []
  | (k', v') :: rest =>
      if (k' =? k)%string then remove k rest else (k', v') :: remove k rest
  end.

(** [o.k] for [o] not nullish. *)
Definition get_prop (o : value) (k : string) : value :=
  match o with
  | VObj ps => match lookup k ps with Some v => v | None => VUndef end
  | VArr _ ps => match lookup k ps with Some v => v | None => VUndef end
  | _ => VUndef
  end.

(** [o.k = v] for [o] not nullish. *)
Definition set_prop (o : value) (k : string) (v : value) : value :=
  match o with
  | VObj ps => VObj (assign k v ps)
  | VArr es ps => VArr es (assign k v ps)
  | _ => o
  end.

(** [delete o.k] for [o] not nullish. *)
Definition del_prop (o : value) (k : string) : value :=
  match o with
  | VObj ps => VObj (remove k ps)
  | VArr es ps => VArr es (remove k ps)
  | _ => o
  end.

(** [k in o] restricted to own properties. *)
Definition has_prop (o : value) (k : string) : bool :=
  match o with
  | VObj ps => match lookup k ps with Some _ => true | None => false end
  | VArr _ ps => match lookup k ps with Some _ => true | None => false end
  | _ => false
  end.

(** ** Strings *)

Fixpoint join (sep : string) (l : list string) : string :=
  match l with
  | [] => ""
  | [s] => s
  | s :: rest => s ++ sep ++ join sep rest
  end.

(** [Number.isSafeInteger(n)]: the integers a double holds exactly and tells
    from their neighbours. *)
Definition isSafeInteger (n : Z) : bool := Z.abs n <? 2 ^ 53.

(** Number::toString on a safe integer: its decimal digits after the sign.
    This is the text JavaScript prints only where [isSafeInteger] holds;
    past [2^53] JavaScript prints the digits of the nearest double
    ([2^63] as [9223372036854776000]) and from [1e21] on an exponent
    ([1e+21]). *)
Definition string_of_Z (n : Z) : string := NilZero.string_of_int (Z.to_int n).

(** ToString, as applied by [String(v)] and by [+] against a string; of a
    number, the text of [string_of_Z], right for the safe integers. *)
Fixpoint to_string (v : value) : string :=
  match v with
  | VUndef => "undefined"
  | VNull => "null"
  | VBool true => "true"
  | VBool false => "false"
  | VNum n => string_of_Z n
  | VStr s => s
  | VObj _ => "[object Object]"
  | VArr es _ =>
      join ","
        ((fix each (l : list value) : list string :=
            match l with
            | [] => []
            | e :: rest =>
                (if is_nullish e then "" else to_string e) :: each rest
            end) es)
  end.

(** [String(v)] *)
Definition String_ (v : value) : value := VStr (to_string v).

(** ['literal' + v] *)
Definition cat (s : string) (v : value) : string := s ++ to_string v.

Definition hex_digit (upper : bool) (n : N) : ascii :=
  if (n <? 10)%N then ascii_of_N (48 + n)
  else ascii_of_N ((if upper then 55 else 87) + n).

(** The characters [encodeURIComponent] leaves alone. *)
Definition uri_unreserved (c : ascii) : bool :=
  let n := N_of_ascii c in
  ((65 <=? n) && (n <=? 90) || (97 <=? n) && (n <=? 122)
   || (48 <=? n) && (n <=? 57))%N
  || existsb (Ascii.eqb c)
       ["-"; "_"; "."; "!"; "~"; "*"; "'"; "("; ")"]%char.

Fixpoint percent_encode (s : string) : string :=
  match s with
  | EmptyString => EmptyString
  | String c rest =>
      if uri_unreserved c then String c (percent_encode rest)
      else
        let n := N_of_ascii c in
        String "%"
          (String (hex_digit true (n / 16))
             (String (hex_digit true (n mod 16)) (percent_encode rest)))
  end.

(** [encodeURIComponent(v)] *)
Definition encodeURIComponent (v : value) : string :=
  percent_encode (to_string v).

(** ** JSON.stringify *)

Definition dquote : ascii := "034"%char.
Definition backslash : ascii := "092"%char.

Definition json_escape (c : ascii) : string :=
  let n := N_of_ascii c in
  let esc (x : ascii) := String backslash (String x EmptyString) in
  if (n =? 34)%N then esc dquote
  else if (n =? 92)%N then esc backslash
  else if (n =? 8)%N then esc "b"%char
  else if (n =? 9)%N then esc "t"%char
  else if (n =? 10)%N then esc "n"%char
  else if (n =? 12)%N then esc "f"%char
  else if (n =? 13)%N then esc "r"%char
  else if (n <? 32)%N then
    String backslash
      (String "u"
         (String "0"
            (String "0"
               (String (hex_digit false (n / 16))
                  (String (hex_digit false (n mod 16)) EmptyString)))))
  else String c EmptyString.

Fixpoint json_escape_all (s : string) : string :=
  match s with
  | EmptyString => EmptyString
  | String c rest => json_escape c ++ json_escape_all rest
  end.

Definition json_quote (s : string) : string :=
  String dquote (json_escape_all s ++ String dquote EmptyString).

Definition json_member (k s : string) : string := json_quote k ++ ":" ++ s.

(** [JSON.stringify(v)]; [None] is [undefined].  A property whose value
    serializes to [undefined] is left out of an object and written [null]
    in an array; the named properties of an array are not serialized.  A
    number is written as [string_of_Z] prints it, right for the safe
    integers. *)
Fixpoint JSON_stringify (v : value) : option string :=
  match v with
  | VUndef => None
  | VNull => Some "null"
  | VBool true => Some "true"
  | VBool false => Some "false"
  | VNum n => Some (string_of_Z n)
  | VStr s => Some (json_quote s)
  | VObj ps =>
      Some ("{" ++
            join ","
              ((fix members (l : props_t) : list string :=
                  match l with
                  | [] => []
                  | p :: rest =>
                      match JSON_stringify (snd p) with
                      | Some s => json_member (fst p) s :: members rest
                      | None => members rest
                      end
                  end) ps) ++ "}")
  | VArr es _ =>
      Some ("[" ++
            join ","
              ((fix items (l : list value) : list string :=
                  match l with
                  | [] => []
                  | e :: rest =>
                      match JSON_stringify e with
                      | Some s => s
                      | None => "null"
                      end :: items rest
                  end) es) ++ "]")
  end.

(** Every number held by [v], at any depth, is a safe integer: the values
    whose text [to_string] and [JSON_stringify] give as JavaScript does. *)
Fixpoint safe (v : value) : bool :=
  match v with
  | VNum n => isSafeInteger n
  | VObj ps =>
      (fix all (l : props_t) : bool :=
         match l with
         | [] => true
         | p :: rest => safe (snd p) && all rest
         end) ps
  | VArr es ps =>
      (fix each (l : list value) : bool :=
         match l with
         | [] => true
         | e :: rest => safe e && each rest
         end) es
      && (fix all (l : props_t) : bool :=
            match l with
            | [] => true
            | p :: rest => safe (snd p) && all rest
            end) ps
  | _ => true
  end.

(** The members [JSON.stringify] writes for a property list. *)
Fixpoint json_members (ps : props_t) : list (string * string) :=
  match ps with
  | [] => []
  | (k, v) :: rest =>
      match JSON_stringify v with
      | Some s => (k, s) :: json_members rest
      | None => json_members rest
      end
  end.

(** ** Errors, requests and deferred results *)

Inductive error : Type :=
| Error (msg : string)
| TypeError
| SyntaxError.

(** The promisified [restler] methods the client calls. *)
Inductive rest_method : Type := getAsync | postAsync | putAsync | delAsync.

Record request : Type := {
  via : rest_method;
  url : string;
  method : string;
  headers : list (string * string);
  data : option string
}.

(** What the transport emits for a call. *)
Inductive event : Type :=
| Success (body : value)
| Fail (body : value)
| ErrorEvent (err : value)
| Abort
| Timeout
| OtherEvent (name : string).

Inductive reason : Type :=
| Payload (v : value)
| CancellationError
| TimeoutError
| Thrown (e : error).

Inductive promise : Type :=
| Pending
| Fulfilled (v : value)
| Rejected (r : reason).

(** A promise settles once: later calls of [resolve] or [reject] are
    ignored. *)
Definition resolve (v : value) (p : promise) : promise :=
  match p with
  | Pending => Fulfilled v
  | _ => p
  end.

Definition reject (r : reason) (p : promise) : promise :=
  match p with
  | Pending => Rejected r
  | _ => p
  end.

(** The five listeners [EventEmitterPromisifier] registers. *)
Definition on_event (e : event) (p : promise) : promise :=
  match e with
  | Success body => resolve body p
  | Fail body => reject (Payload body) p
  | ErrorEvent err => reject (Payload err) p
  | Abort => reject CancellationError p
  | Timeout => reject TimeoutError p
  | OtherEvent _ => p
  end.

Definition deliver (emitted : list event) (p : promise) : promise :=
  fold_left (fun q e => on_event e q) emitted p.

(** The transport: the original [restler] method.  It either throws or
    returns an emitter, given here by the events it goes on to emit; the
    log records the calls it received. *)
Definition transport := request -> error + list event.

(** [EventEmitterPromisifier(originalMethod)], applied to a call. *)
Definition EventEmitterPromisifier (originalMethod : transport)
    (args : request) (log : list request) : promise * list request :=
  (match originalMethod args with
   | inl e => Rejected (Thrown e)
   | inr emitted => deliver emitted Pending
   end,
   (log ++ [args])%list).

(** The value a method returns: the promise of one call, possibly chained
    through [then]. *)
Inductive deferred : Type :=
| Http (r : request)
| Then (d : deferred) (k : value -> error + value).

Fixpoint requests (d : deferred) : list request :=
  match d with
  | Http r => [r]
  | Then d' _ => requests d'
  end.

Fixpoint settle (t : transport) (d : deferred) (log : list request)
  : promise * list request :=
  match d with
  | Http r => EventEmitterPromisifier t r log
  | Then d' k =>
      let '(p, log') := settle t d' log in
      (match p with
       | Fulfilled v =>
           match k v with
           | inr w => Fulfilled w
           | inl e => Rejected (Thrown e)
           end
       | _ => p
       end,
       log')
  end.

(** ** The [options] variable of a method

    A method's parameter [options] starts out bound to whatever the caller
    passed.  [caller] is the caller's argument (for an object: the contents
    of the object the caller still holds).  While [own] is [None] the
    variable refers to that very object, so writes through it are the
    caller's to see; once the method rebinds the variable ([options = {}]),
    [own] holds the new value and the caller's object is out of reach. *)

Record frame : Type := {
  caller : value;
  own : option value
}.

Definition current (f : frame) : value :=
  match own f with
  | Some v => v
  | None => caller f
  end.

Definition update (g : value -> value) (f : frame) : frame :=
  match own f with
  | Some v => {| caller := caller f; own := Some (g v) |}
  | None => {| caller := g (caller f); own := None |}
  end.

Definition M (A : Type) : Type := frame -> (error + A) * frame.

Definition ret {A : Type} (a : A) : M A := fun f => (inr a, f).

Definition bind {A B : Type} (m : M A) (k : A -> M B) : M B :=
  fun f =>
    match m f with
    | (inl e, f') => (inl e, f')
    | (inr a, f') => k a f'
    end.

Definition throw {A : Type} (e : error) : M A := fun f => (inl e, f).

Declare Scope js_scope.
Delimit Scope js_scope with js.
Notation "x <- m ;; k" := (bind m (fun x => k))
  (at level 61, m at next level, right associativity) : js_scope.
Notation "m ;; k" := (bind m (fun _ => k))
  (at level 61, right associativity) : js_scope.
Local Open Scope js_scope.

(** [options] *)
Definition options : M value := fun f => (inr (current f), f).

(** [options = v], for a [v] that is not the object already bound *)
Definition rebind (v : value) : M unit :=
  fun f => (inr tt, {| caller := caller f; own := Some v |}).

(** [options.k] *)
Definition get (k : string) : M value :=
  fun f =>
    if is_nullish (current f) then (inl TypeError, f)
    else (inr (get_prop (current f) k), f).

(** [options.k = v] *)
Definition put (k : string) (v : value) : M unit :=
  fun f =>
    if is_nullish (current f) then (inl TypeError, f)
    else (inr tt, update (fun o => set_prop o k v) f).

(** [delete options.k] *)
Definition delete (k : string) : M unit :=
  fun f =>
    if is_nullish (current f) then (inl TypeError, f)
    else (inr tt, update (fun o => del_prop o k) f).

Definition when (b : bool) (m : M unit) : M unit := if b then m else ret tt.

(** [options = options || {}]: a truthy [options] stays bound to the same
    object. *)
Definition options_or_empty : M unit :=
  o <- options ;;
  if truthy o then ret tt else rebind (VObj []).

Definition is_type (v : value) (t : string) : bool := (typeof v =? t)%string.

(** [if (typeof options === "string" || typeof options === "number")
       options = { k: options }] *)
Definition wrap_string_or_number (k : string) : M unit :=
  o <- options ;;
  when (is_type o "string" || is_type o "number") (rebind (VObj [(k, o)])).

(** [if (typeof options === "string") options = { k: options }] *)
Definition wrap_string (k : string) : M unit :=
  o <- options ;;
  when (is_type o "string") (rebind (VObj [(k, o)])).

(** What a call did. *)
Inductive outcome : Type :=
| Threw (e : error)
| Returned (d : deferred).

(** Running a method body on the caller's argument: the outcome and the
    caller's argument afterwards. *)
Definition run (body : M deferred) (arg : value) : outcome * value :=
  let '(r, f) := body {| caller := arg; own := None |} in
  (match r with
   | inl e => Threw e
   | inr d => Returned d
   end,
   caller f).

(** [this.method(options)]: the callee receives the reference held in
    [options]. *)
Definition invoke (callee : value -> outcome * value) : M deferred :=
  fun f =>
    let '(out, o) := callee (current f) in
    (match out with
     | Threw e => inl e
     | Returned d => inr d
     end,
     update (fun _ => o) f).

(** [this.method(v)] for a primitive [v], which is passed by value. *)
Definition invoke_with (callee : value -> outcome * value) (v : value)
  : M deferred :=
  fun f =>
    (match fst (callee v) with
     | Threw e => inl e
     | Returned d => inr d
     end,
     f).

(** ** The client *)

Record client : Type := {
  apiToken : string;
  baseUrl : value;
  baseHeaders : list (string * string)
}.

(** [new OptimizelyClient(apiToken, options)] *)
Definition OptimizelyClient (apiToken options : value) : error + client :=
  if negb (truthy apiToken) then inl (Error "Required: apiToken")
  else
    let token := to_string apiToken in
    inr {| apiToken := token;
           baseUrl :=
             if truthy options && truthy (get_prop options "url")
             then get_prop options "url"
             else VStr "https://www.optimizelyapis.com/experiment/v1/";
           baseHeaders :=
             if truthy options && truthy (get_prop options "OAuth2")
             then [("Authorization", "Bearer " ++ token);
                   ("Content-Type", "application/json")]
             else [("Token", token);
                   ("Content-Type", "application/json")] |}.

(** [this.baseUrl + 'path'] *)
Definition at_base (this : client) (path : string) : string :=
  to_string (baseUrl this) ++ path.

Definition rest_get (this : client) (theUrl m : string) : deferred :=
  Http {| via := getAsync; url := theUrl; method := m;
          headers := baseHeaders this; data := None |}.

Definition rest_del (this : client) (theUrl m : string) : deferred :=
  Http {| via := delAsync; url := theUrl; method := m;
          headers := baseHeaders this; data := None |}.

Definition rest_post (this : client) (theUrl m : string)
    (body : option string) : deferred :=
  Http {| via := postAsync; url := theUrl; method := m;
          headers := baseHeaders this; data := body |}.

Definition rest_put (this : client) (theUrl m : string)
    (body : option string) : deferred :=
  Http {| via := putAsync; url := theUrl; method := m;
          headers := baseHeaders this; data := body |}.

(** ** 1. Projects *)

Definition createProject (this : client) : value -> outcome * value :=
  run (
    options_or_empty ;;
    project_name <- get "project_name" ;;
    put "project_name" (js_or project_name (VStr "")) ;;
    project_status <- get "project_status" ;;
    put "project_status" (js_or project_status (VStr "Active")) ;;
    include_jquery <- get "include_jquery" ;;
    put "include_jquery" (VBool (truthy include_jquery)) ;;
    ip_filter <- get "ip_filter" ;;
    put "ip_filter" (js_or ip_filter (VStr "")) ;;
    let postUrl := at_base this "projects/" in
    o <- options ;;
    ret (rest_post this postUrl "post" (JSON_stringify o))).

Definition getProject (this : client) : value -> outcome * value :=
  run (
    wrap_string_or_number "id" ;;
    options_or_empty ;;
    id <- get "id" ;;
    put "id" (String_ (js_or id (VStr ""))) ;;
    id <- get "id" ;;
    if negb (truthy id) then throw (Error "required: options.id")
    else
      let theUrl := cat (at_base this "projects/") id in
      ret (rest_get this theUrl "get")).

Definition updateProject (this : client) : value -> outcome * value :=
  run (
    options_or_empty ;;
    id <- get "id" ;;
    put "id" (js_or id (VBool false)) ;;
    id <- get "id" ;;
    if negb (truthy id) then throw (Error "required: options.id")
    else
      let putUrl := cat (at_base this "projects/") id in
      o <- options ;;
      ret (rest_put this putUrl "put" (JSON_stringify o))).

Definition getProjects (this : client) : outcome :=
  let theUrl := at_base this "projects/" in
  Returned (rest_get this theUrl "get").

(** ** 2. Experiments *)

Definition createExperiment (this : client) : value -> outcome * value :=
  run (
    options_or_empty ;;
    description <- get "description" ;;
    put "description" (js_or description (VStr "")) ;;
    project_id <- get "project_id" ;;
    put "project_id" (js_or project_id (VStr "")) ;;
    edit_url <- get "edit_url" ;;
    put "edit_url" (js_or edit_url (VStr "")) ;;
    custom_css <- get "custom_css" ;;
    put "custom_css" (js_or custom_css (VStr "")) ;;
    custom_js <- get "custom_js" ;;
    put "custom_js" (js_or custom_js (VStr "")) ;;
    edit_url <- get "edit_url" ;;
    if negb (truthy edit_url) then throw (Error "Required: options.edit_url")
    else
      project_id <- get "project_id" ;;
      if negb (truthy project_id)
      then throw (Error "Required: options.project_id")
      else
        let postUrl :=
          cat (at_base this "projects/") project_id ++ "/experiments/" in
        delete "project_id" ;;
        o <- options ;;
        ret (rest_post this postUrl "post" (JSON_stringify o))).

Definition getExperiment (this : client) : value -> outcome * value :=
  run (
    wrap_string_or_number "id" ;;
    options_or_empty ;;
    id <- get "id" ;;
    put "id" (String_ (js_or id (VStr ""))) ;;
    id <- get "id" ;;
    if negb (truthy id) then throw (Error "required: options.id")
    else
      let theUrl := cat (at_base this "experiments/") id in
      ret (rest_get this theUrl "get")).

Definition updateExperiment (this : client) : value -> outcome * value :=
  run (
    options_or_empty ;;
    id <- get "id" ;;
    put "id" (String_ (js_or id (VStr ""))) ;;
    description <- get "description" ;;
    put "description" (js_or description (VStr "")) ;;
    edit_url <- get "edit_url" ;;
    put "edit_url" (js_or edit_url (VStr "")) ;;
    custom_css <- get "custom_css" ;;
    put "custom_css" (js_or custom_css (VStr "")) ;;
    custom_js <- get "custom_js" ;;
    put "custom_js" (js_or custom_js (VStr "")) ;;
    id <- get "id" ;;
    if negb (truthy id) then throw (Error "required: options.id")
    else
      let theUrl := cat (at_base this "experiments/") id in
      delete "id" ;;
      o <- options ;;
      ret (rest_put this theUrl "put" (JSON_stringify o))).

Definition pushExperiment (this : client) : value -> outcome * value :=
  run (
    options_or_empty ;;
    id <- get "id" ;;
    put "id" (js_or id (VStr "")) ;;
    id <- get "id" ;;
    if truthy id then invoke (updateExperiment this)
    else invoke (createExperiment this)).

Definition getExperiments (this : client) : value -> outcome * value :=
  run (
    wrap_string_or_number "project_id" ;;
    options_or_empty ;;
    project_id <- get "project_id" ;;
    put "project_id" (String_ (js_or project_id (VStr ""))) ;;
    project_id <- get "project_id" ;;
    if negb (truthy project_id)
    then throw (Error "required: options.project_id")
    else
      let theUrl :=
        cat (at_base this "projects/") project_id ++ "/experiments/" in
      ret (rest_get this theUrl "get")).

Definition deleteExperiment (this : client) : value -> outcome * value :=
  run (
    wrap_string_or_number "id" ;;
    options_or_empty ;;
    id <- get "id" ;;
    put "id" (String_ (js_or id (VStr ""))) ;;
    id <- get "id" ;;
    if negb (truthy id) then throw (Error "required: options.id")
    else
      let theUrl := cat (at_base this "experiments/") id in
      ret (rest_del this theUrl "delete")).

(** The query string of [getResults] and [getStats]:
    [if (options.dimension) { ... theUrl += urlParameters }] *)
Definition with_dimension (theUrl : string) : M string :=
  dimension <- get "dimension" ;;
  if truthy dimension then
    let urlParameters := "?" in
    if negb (truthy (get_prop dimension "id"))
    then throw (Error "required: options.dimension.id")
    else if negb (truthy (get_prop dimension "value"))
    then throw (Error "required: options.dimension.value")
    else
      let urlParameters :=
        urlParameters ++ "dimension_id=" ++
        encodeURIComponent (get_prop dimension "id") in
      let urlParameters :=
        urlParameters ++ "&dimension_value=" ++
        encodeURIComponent (get_prop dimension "value") in
      ret (theUrl ++ urlParameters)
  else ret theUrl.

Definition getResults (this : client) : value -> outcome * value :=
  run (
    wrap_string_or_number "id" ;;
    options_or_empty ;;
    id <- get "id" ;;
    put "id" (String_ (js_or id (VStr ""))) ;;
    id <- get "id" ;;
    if negb (truthy id) then throw (Error "required: options.id")
    else
      let theUrl := cat (at_base this "experiments/") id ++ "/results" in
      theUrl <- with_dimension theUrl ;;
      ret (rest_get this theUrl "GET")).

Definition getStats (this : client) : value -> outcome * value :=
  run (
    wrap_string_or_number "id" ;;
    options_or_empty ;;
    id <- get "id" ;;
    put "id" (String_ (js_or id (VStr ""))) ;;
    id <- get "id" ;;
    if negb (truthy id) then throw (Error "required: options.id")
    else
      let theUrl := cat (at_base this "experiments/") id ++ "/stats" in
      theUrl <- with_dimension theUrl ;;
      ret (rest_get this theUrl "GET")).

(** [===] between a value of the response and a value of the caller.  Two
    objects are equal only when they are the same object, which an object
    decoded from the response and one held by the caller never are. *)
Definition strict_eq (a b : value) : bool :=
  match a, b with
  | VUndef, VUndef => true
  | VNull, VNull => true
  | VBool x, VBool y => Bool.eqb x y
  | VNum x, VNum y => (x =? y)%Z
  | VStr x, VStr y => (x =? y)%string
  | _, _ => false
  end.

(** The values [data[i]] that [for (var i in data)] visits, in order. *)
Definition for_in (data : value) : list value :=
  match data with
  | VArr es ps => es ++ map snd ps
  | VObj ps => map snd ps
  | VStr s =>
      map (fun c => VStr (String c EmptyString)) (list_ascii_of_string s)
  | _ => []
  end.

(** The loop of [getExperimentByDescription]:
    [if (data[i]['description'] === options.description) return data[i]],
    and [return null] after the loop. *)
Fixpoint scan (description : value) (entries : list value) : error + value :=
  match entries with
  | [] => inr VNull
  | entry :: rest =>
      if is_nullish entry then inl TypeError
      else if strict_eq (get_prop entry "description") description
           then inr entry
           else scan description rest
  end.

Section Host.

(** [JSON.parse]; [None] when it throws its SyntaxError. *)
Variable JSON_parse : string -> option value.

(** The callback given to [then]. *)
Definition by_description (description data : value) : error + value :=
  match
    (if is_type data "string"
     then match JSON_parse (to_string data) with
          | Some parsed => inr parsed
          | None => inl SyntaxError
          end
     else inr data)
  with
  | inl e => inl e
  | inr data => scan description (for_in data)
  end.

(** [arg1] is [arguments[1]]. *)
Definition getExperimentByDescription (this : client) (arg arg1 : value)
  : outcome * value :=
  run (
    wrap_string "project_id" ;;
    options_or_empty ;;
    project_id <- get "project_id" ;;
    put "project_id" (String_ (js_or project_id (VStr ""))) ;;
    description <- get "description" ;;
    put "description" (js_or description arg1) ;;
    project_id <- get "project_id" ;;
    if negb (truthy project_id)
    then throw (Error "Required: options.project_id")
    else
      description <- get "description" ;;
      if negb (truthy description)
      then throw (Error "Required: options.description")
      else
        listed <- invoke_with (getExperiments this) project_id ;;
        ret (Then listed (by_description description))) arg.

End Host.

(** ** 3. Variations *)

Definition createVariation (this : client) : value -> outcome * value :=
  run (
    options_or_empty ;;
    experiment_id <- get "experiment_id" ;;
    put "experiment_id" (String_ (js_or experiment_id (VStr ""))) ;;
    description <- get "description" ;;
    put "description" (js_or description (VStr "")) ;;
    experiment_id <- get "experiment_id" ;;
    if negb (truthy experiment_id)
    then throw (Error "Required: options.experiment_id")
    else
      let postUrl :=
        cat (at_base this "experiments/") experiment_id ++ "/variations/" in
      delete "experiment_id" ;;
      o <- options ;;
      ret (rest_post this postUrl "post" (JSON_stringify o))).

Definition getVariation (this : client) : value -> outcome * value :=
  run (
    wrap_string "id" ;;
    id <- get "id" ;;
    if negb (truthy id) then throw (Error "Required: options.id")
    else
      let theUrl := cat (at_base this "variations/") id in
      ret (rest_get this theUrl "get")).

Definition updateVariation (this : client) : value -> outcome * value :=
  run (
    let optionsToUpdate := VObj [] in
    options_or_empty ;;
    id <- get "id" ;;
    if negb (truthy id) then throw (Error "Required: options.id")
    else
      let optionsToUpdate :=
        set_prop optionsToUpdate "id" (js_or id (VStr "")) in
      description <- get "description" ;;
      let optionsToUpdate :=
        set_prop optionsToUpdate "description"
          (js_or description (VStr "")) in
      js_component <- get "js_component" ;;
      let optionsToUpdate :=
        set_prop optionsToUpdate "js_component"
          (js_or js_component (VStr "")) in
      let theUrl := cat (at_base this "variations/") id in
      ret (rest_put this theUrl "put" (JSON_stringify optionsToUpdate))).

Definition pushVariation (this : client) : value -> outcome * value :=
  run (
    options_or_empty ;;
    id <- get "id" ;;
    put "id" (js_or id (VStr "")) ;;
    id <- get "id" ;;
    if truthy id then invoke (updateVariation this)
    else invoke (createVariation this)).

Definition deleteVariation (this : client) : value -> outcome * value :=
  run (
    wrap_string "id" ;;
    id <- get "id" ;;
    if negb (truthy id) then throw (Error "Required: options.id")
    else
      let theUrl := cat (at_base this "variations/") id in
      ret (rest_del this theUrl "delete")).

(** ** 4. Audiences *)

Definition getAudience (this : client) : value -> outcome * value :=
  run (
    wrap_string "id" ;;
    id <- get "id" ;;
    if negb (truthy id) then throw (Error "Required: options.id")
    else
      let theUrl := cat (at_base this "audiences/") id in
      ret (rest_get this theUrl "get")).

Definition createAudience (this : client) : value -> outcome * value :=
  run (
    let optionsToSend := VObj [] in
    options_or_empty ;;
    name <- get "name" ;;
    if negb (truthy name) then throw (Error "Required: options.name")
    else
      id <- get "id" ;;
      if negb (truthy id) then throw (Error "Required: options.id")
      else
        let optionsToSend := set_prop optionsToSend "name" name in
        let optionsToSend := set_prop optionsToSend "id" id in
        description <- get "description" ;;
        let optionsToSend :=
          set_prop optionsToSend "description"
            (js_or description (VStr "")) in
        segmentation <- get "segmentation" ;;
        let optionsToSend :=
          set_prop optionsToSend "segmentation"
            (js_or segmentation (VBool false)) in
        conditions <- get "conditions" ;;
        let optionsToSend :=
          set_prop optionsToSend "conditions"
            (js_or conditions (VArr [] [])) in
        let postUrl := cat (at_base this "projects/") id ++ "/audiences/" in
        ret (rest_post this postUrl "post" (JSON_stringify optionsToSend))).

Definition updateAudience (this : client) : value -> outcome * value :=
  run (
    options_or_empty ;;
    id <- get "id" ;;
    put "id" (js_or id (VBool false)) ;;
    id <- get "id" ;;
    if negb (truthy id) then throw (Error "required: options.id")
    else
      let putUrl := cat (at_base this "audiences/") id in
      o <- options ;;
      ret (rest_put this putUrl "put" (JSON_stringify o))).

Definition getAudiences (this : client) : value -> outcome * value :=
  run (
    wrap_string_or_number "id" ;;
    options_or_empty ;;
    id <- get "id" ;;
    put "id" (js_or id (VStr "")) ;;
    id <- get "id" ;;
    if negb (truthy id) then throw (Error "required: options.id")
    else
      let theUrl := cat (at_base this "projects/") id ++ "/audiences/" in
      ret (rest_get this theUrl "get")).

(** ** 5. Dimensions *)

Definition getDimension (this : client) : value -> outcome * value :=
  run (
    wrap_string "id" ;;
    id <- get "id" ;;
    if negb (truthy id) then throw (Error "Required: options.id")
    else
      let theUrl := cat (at_base this "dimensions/") id in
      ret (rest_get this theUrl "get")).

Definition createDimension (this : client) : value -> outcome * value :=
  run (
    let optionsToSend := VObj [] in
    options_or_empty ;;
    name <- get "name" ;;
    if negb (truthy name) then throw (Error "Required: options.name")
    else
      id <- get "id" ;;
      if negb (truthy id) then throw (Error "Required: options.id")
      else
        let optionsToSend := set_prop optionsToSend "name" name in
        let optionsToSend := set_prop optionsToSend "id" id in
        description <- get "description" ;;
        let optionsToSend :=
          set_prop optionsToSend "description"
            (js_or description (VStr "")) in
        client_api_name <- get "client_api_name" ;;
        let optionsToSend :=
          set_prop optionsToSend "client_api_name"
            (js_or client_api_name (VStr "")) in
        let postUrl := cat (at_base this "projects/") id ++ "/dimensions/" in
        ret (rest_post this postUrl "post" (JSON_stringify optionsToSend))).

Definition updateDimension (this : client) : value -> outcome * value :=
  run (
    options_or_empty ;;
    id <- get "id" ;;
    put "id" (js_or id (VBool false)) ;;
    id <- get "id" ;;
    if negb (truthy id) then throw (Error "required: options.id")
    else
      let putUrl := cat (at_base this "dimensions/") id in
      o <- options ;;
      ret (rest_put this putUrl "put" (JSON_stringify o))).

Definition getDimensions (this : client) : value -> outcome * value :=
  run (
    wrap_string_or_number "id" ;;
    options_or_empty ;;
    id <- get "id" ;;
    put "id" (js_or id (VStr "")) ;;
    id <- get "id" ;;
    if negb (truthy id) then throw (Error "required: options.id")
    else
      let theUrl := cat (at_base this "projects/") id ++ "/dimensions/" in
      ret (rest_get this theUrl "get")).

(** ** 6. Goals *)

Definition getGoals (this : client) : value -> outcome * value :=
  run (
    wrap_string_or_number "id" ;;
    options_or_empty ;;
    id <- get "id" ;;
    put "id" (js_or id (VStr "")) ;;
    id <- get "id" ;;
    if negb (truthy id) then throw (Error "required: options.id")
    else
      let theUrl := cat (at_base this "projects/") id ++ "/goals/" in
      ret (rest_get this theUrl "get")).

(** ** Vocabulary of the statements *)

(** [obj.k = obj.k || d] *)
Definition with_default (k : string) (d : value) (o : value) : value :=
  set_prop o k (js_or (get_prop o k) d).

(** The argument names no identifier under [k]: nothing was passed, the bare
    identifier is empty, or the object passed has no (or a falsy) [k]. *)
Definition no_identifier (k : string) (arg : value) : Prop :=
  is_nullish arg = true \/ arg = VStr "" \/
  (is_object arg = true /\ truthy (get_prop arg k) = false).

(** The object [createProject] serializes when given the object [o]. *)
Definition createProject_options (o : value) : value :=
  with_default "ip_filter" (VStr "")
    (set_prop
       (with_default "project_status" (VStr "Active")
          (with_default "project_name" (VStr "") o))
       "include_jquery" (VBool (truthy (get_prop o "include_jquery")))).

(** The caller's object once [createExperiment] has written its defaults. *)
Definition createExperiment_options (o : value) : value :=
  with_default "custom_js" (VStr "")
    (with_default "custom_css" (VStr "")
       (with_default "edit_url" (VStr "")
          (with_default "project_id" (VStr "")
             (with_default "description" (VStr "") o)))).

(** The caller's object once [updateExperiment] has written its defaults. *)
Definition updateExperiment_options (o : value) : value :=
  with_default "custom_js" (VStr "")
    (with_default "custom_css" (VStr "")
       (with_default "edit_url" (VStr "")
          (with_default "description" (VStr "")
             (set_prop o "id"
                (String_ (js_or (get_prop o "id") (VStr ""))))))).

(** The caller's object once [createVariation] has written its defaults. *)
Definition createVariation_options (o : value) : value :=
  with_default "description" (VStr "")
    (set_prop o "experiment_id"
       (String_ (js_or (get_prop o "experiment_id") (VStr "")))).

(** The events that settle a promise. *)
Definition terminal (e : event) : bool :=
  match e with
  | OtherEvent _ => false
  | _ => true
  end.

(** The resolution the adapter is specified to give for an event. *)
Definition resolution (e : event) : promise :=
  match e with
  | Success body => Fulfilled body
  | Fail body => Rejected (Payload body)
  | ErrorEvent err => Rejected (Payload err)
  | Abort => Rejected CancellationError
  | Timeout => Rejected TimeoutError
  | OtherEvent _ => Pending
  end.

(** The resolution of the first terminal event, if there is one. *)
Definition first_resolution (emitted : list event) : promise :=
  match find terminal emitted with
  | Some e => resolution e
  | None => Pending
  end.

Definition settled (p : promise) : bool :=
  match p with
  | Pending => false
  | _ => true
  end.

(** The entry's [description] is exactly the string [d]. *)
Definition described (d : string) (entry : value) : bool :=
  match get_prop entry "description" with
  | VStr s => (s =? d)%string
  | _ => false
  end.

(** The first entry described by [d], or [null]. *)
Definition first_described (d : string) (entries : list value) : value :=
  match find (described d) entries with
  | Some entry => entry
  | None => VNull
  end.

(** The listing as a collection: decoded when it arrives as text. *)
Definition decoded (JSON_parse : string -> option value) (data : value)
  : option value :=
  match data with
  | VStr text => JSON_parse text
  | _ => Some data
  end.

(** The characters of a percent-encoded text. *)
Definition uri_safe (c : ascii) : bool :=
  uri_unreserved c || Ascii.eqb c "%"%char.

Fixpoint all_chars (p : ascii -> bool) (s : string) : bool :=
  match s with
  | EmptyString => true
  | String c rest => p c && all_chars p rest
  end.

(** Where a filtered call goes: the path of the experiment [o.id], then
    the query built from [o.dimension]. *)
Definition filtered (this : client) (o : value) (suffix : string) : string :=
  at_base this
    ("experiments/" ++ to_string (get_prop o "id") ++ suffix ++
     "?dimension_id=" ++
     encodeURIComponent (get_prop (get_prop o "dimension") "id") ++
     "&dimension_value=" ++
     encodeURIComponent (get_prop (get_prop o "dimension") "value")).

Definition dimension_outcome (this : client) (o : value) (suffix : string)
  : outcome :=
  if truthy (get_prop o "dimension") then
    if negb (truthy (get_prop (get_prop o "dimension") "id"))
    then Threw (Error "required: options.dimension.id")
    else if negb (truthy (get_prop (get_prop o "dimension") "value"))
    then Threw (Error "required: options.dimension.value")
    else Returned (rest_get this (filtered this o suffix) "GET")
  else
    Returned
      (rest_get this
         (at_base this
            ("experiments/" ++ to_string (get_prop o "id") ++ suffix))
         "GET").

(** ** Sample data *)

Definition demo : client :=
  {| apiToken := "token";
     baseUrl := VStr "https://www.optimizelyapis.com/experiment/v1/";
     baseHeaders :=
       [("Token", "token"); ("Content-Type", "application/json")] |}.

Definition experiment (d : string) : value :=
  VObj [("id", VNum 1); ("description", VStr d)].

Definition listing_ABC : value :=
  VArr [experiment "A"; experiment "B"; experiment "C"] [].

(** A host whose [JSON.parse] decodes the one text this development feeds
    it. *)
Definition parse_listing_ABC (text : string) : option value :=
  match JSON_stringify listing_ABC with
  | Some serialized =>
      if (text =? serialized)%string then Some listing_ABC else None
  | None => None
  end.

Definition sample_experiment : value :=
  VObj [("edit_url", VStr "https://example.com/"); ("project_id", VStr "1")].

Definition sample_audience : value :=
  VObj [("id", VNum 7); ("name", VStr "returning visitors")].

Definition sample_project : value :=
  VObj [("id", VStr "1"); ("project_name", VStr "x")].

Definition sample_stats : value :=
  VObj [("id", VNum 7);
        ("dimension", VObj [("id", VNum 12); ("value", VStr "a b&c")])].

(** ** Vocabulary of the further properties *)

(** The [restler] methods that send a body. *)
Definition carries_body (v : rest_method) : bool :=
  match v with
  | postAsync => true
  | putAsync => true
  | _ => false
  end.

Definition has_body (r : request) : bool :=
  match data r with
  | Some _ => true
  | None => false
  end.

(** A deferred result that stands for one request of the client [this],
    made with one of [verbs]: the request carries the client's headers, goes
    to an address under the client's base address, and has a body exactly
    when its method sends one. *)
Definition shaped (this : client) (verbs : list rest_method) (d : deferred)
  : Prop :=
  exists r,
    requests d = [r] /\
    In (via r) verbs /\
    headers r = baseHeaders this /\
    prefix (to_string (baseUrl this)) (url r) = true /\
    has_body r = carries_body (via r).

(** Every method of the client, with the [restler] methods it may use.
    [getProjects] takes no argument; [getExperimentByDescription] takes the
    host's [JSON.parse] and a second argument. *)
Definition operations (JSON_parse : string -> option value) (this : client)
    (arg1 : value)
  : list (list rest_method * (value -> outcome * value)) :=
  [ ([postAsync], createProject this);
    ([getAsync], getProject this);
    ([putAsync], updateProject this);
    ([getAsync], fun arg => (getProjects this, arg));
    ([postAsync], createExperiment this);
    ([getAsync], getExperiment this);
    ([putAsync], updateExperiment this);
    ([putAsync; postAsync], pushExperiment this);
    ([getAsync], getExperiments this);
    ([getAsync],
     fun arg => getExperimentByDescription JSON_parse this arg arg1);
    ([delAsync], deleteExperiment this);
    ([getAsync], getResults this);
    ([getAsync], getStats this);
    ([postAsync], createVariation this);
    ([getAsync], getVariation this);
    ([putAsync], updateVariation this);
    ([putAsync; postAsync], pushVariation this);
    ([delAsync], deleteVariation this);
    ([getAsync], getAudience this);
    ([postAsync], createAudience this);
    ([putAsync], updateAudience this);
    ([getAsync], getAudiences this);
    ([getAsync], getDimension this);
    ([postAsync], createDimension this);
    ([putAsync], updateDimension this);
    ([getAsync], getDimensions this);
    ([getAsync], getGoals this) ].

(** [obj.k = String(obj.k || "")] *)
Definition coerced (k : string) (o : value) : value :=
  set_prop o k (String_ (js_or (get_prop o k) (VStr ""))).

(** * Properties *)

Arguments JSON_stringify : simpl never.
Arguments to_string : simpl never.
Arguments percent_encode : simpl never.
Arguments string_of_Z : simpl never.

(** ** Property lists *)

Lemma lookup_assign_eq (k : string) (v : value) (ps : props_t) :
  lookup k (assign k v ps) = Some v.
Proof.
  induction ps as [|[k' v'] ps IH]; simpl.
  - now rewrite String.eqb_refl.
  - destruct (k' =? k)%string eqn:E; simpl.
    + now rewrite String.eqb_refl.
    + now rewrite E.
Qed.

Lemma lookup_assign_neq (k k' : string) (v : value) (ps : props_t) :
  k <> k' -> lookup k' (assign k v ps) = lookup k' ps.
Proof.
  intros N. apply String.eqb_neq in N.
  induction ps as [|[k0 v0] ps IH]; simpl.
  - now rewrite N.
  - destruct (k0 =? k)%string eqn:E; simpl.
    + apply String.eqb_eq in E; subst k0. now rewrite N.
    + now rewrite IH.
Qed.

Lemma lookup_remove_eq (k : string) (ps : props_t) :
  lookup k (remove k ps) = None.
Proof.
  induction ps as [|[k' v'] ps IH]; simpl; trivial.
  destruct (k' =? k)%string eqn:E; simpl; trivial.
  now rewrite E.
Qed.

Lemma lookup_remove_neq (k k' : string) (ps : props_t) :
  k <> k' -> lookup k' (remove k ps) = lookup k' ps.
Proof.
  intros N. apply String.eqb_neq in N.
  induction ps as [|[k0 v0] ps IH]; simpl; trivial.
  destruct (k0 =? k)%string eqn:E; simpl.
  - apply String.eqb_eq in E; subst k0. now rewrite N.
  - now rewrite IH.
Qed.

Lemma assign_present (k : string) (v : value) (ps : props_t) :
  lookup k ps = Some v -> assign k v ps = ps.
Proof.
  induction ps as [|[k' v'] ps IH]; simpl; [discriminate|].
  destruct (k' =? k)%string eqn:E.
  - apply String.eqb_eq in E. intros [= ->]. now subst.
  - intros H. now rewrite IH.
Qed.

(** ** Values and their properties *)

Lemma object_not_nullish (o : value) :
  is_object o = true -> is_nullish o = false.
Proof. now destruct o. Qed.

Lemma object_truthy (o : value) : is_object o = true -> truthy o = true.
Proof. now destruct o. Qed.

Lemma set_prop_object (o : value) (k : string) (v : value) :
  is_object (set_prop o k v) = is_object o.
Proof. now destruct o. Qed.

Lemma del_prop_object (o : value) (k : string) :
  is_object (del_prop o k) = is_object o.
Proof. now destruct o. Qed.

Lemma get_set_eq (o : value) (k : string) (v : value) :
  is_object o = true -> get_prop (set_prop o k v) k = v.
Proof.
  destruct o; try discriminate; intros _; simpl; now rewrite lookup_assign_eq.
Qed.

Lemma get_set_neq (o : value) (k k' : string) (v : value) :
  k <> k' -> get_prop (set_prop o k v) k' = get_prop o k'.
Proof.
  intros N. destruct o; trivial; simpl; now rewrite lookup_assign_neq.
Qed.

Lemma get_del_eq (o : value) (k : string) :
  get_prop (del_prop o k) k = VUndef.
Proof. destruct o; trivial; simpl; now rewrite lookup_remove_eq. Qed.

Lemma get_del_neq (o : value) (k k' : string) :
  k <> k' -> get_prop (del_prop o k) k' = get_prop o k'.
Proof.
  intros N. destruct o; trivial; simpl; now rewrite lookup_remove_neq.
Qed.

Lemma has_del_eq (o : value) (k : string) :
  has_prop (del_prop o k) k = false.
Proof. destruct o; trivial; simpl; now rewrite lookup_remove_eq. Qed.

Lemma truthy_has_prop (o : value) (k : string) :
  truthy (get_prop o k) = true -> has_prop o k = true.
Proof. destruct o; simpl; try discriminate; now destruct (lookup k _). Qed.

Lemma truthy_is_object (o : value) (k : string) :
  truthy (get_prop o k) = true -> is_object o = true.
Proof. now destruct o. Qed.

(** Writing back the value a property already has changes nothing. *)
Lemma set_prop_present (o : value) (k : string) :
  has_prop o k = true -> set_prop o k (get_prop o k) = o.
Proof.
  destruct o; simpl; try discriminate;
    (destruct (lookup k _) eqn:E; [intros _ | discriminate]);
    now rewrite (assign_present _ _ E).
Qed.

Lemma js_or_truthy (a b : value) : truthy a = true -> js_or a b = a.
Proof. unfold js_or. now intros ->. Qed.

Lemma js_or_falsy (a b : value) : truthy a = false -> js_or a b = b.
Proof. unfold js_or. now intros ->. Qed.

Lemma truthy_or_empty (a : value) : truthy (js_or a (VStr "")) = truthy a.
Proof. unfold js_or. now destruct (truthy a) eqn:E. Qed.

Lemma truthy_or_false (a : value) :
  truthy (js_or a (VBool false)) = truthy a.
Proof. unfold js_or. now destruct (truthy a) eqn:E. Qed.

Lemma truthy_String (v : value) :
  truthy (String_ v) = negb (to_string v =? "")%string.
Proof. reflexivity. Qed.

Lemma with_default_object (k : string) (d o : value) :
  is_object (with_default k d o) = is_object o.
Proof. apply set_prop_object. Qed.

Lemma get_with_default_eq (k : string) (d o : value) :
  is_object o = true ->
  get_prop (with_default k d o) k = js_or (get_prop o k) d.
Proof. apply get_set_eq. Qed.

Lemma get_with_default_neq (k k' : string) (d o : value) :
  k <> k' -> get_prop (with_default k d o) k' = get_prop o k'.
Proof. apply get_set_neq. Qed.

(** Symbolic execution of a method body. *)
Ltac exec :=
  cbv [run bind wrap_string_or_number wrap_string options_or_empty options
       when get put delete ret rebind throw invoke invoke_with current update
       is_type with_dimension];
  cbn [caller own fst snd].

Ltac props :=
  repeat first
    [ rewrite lookup_assign_eq
    | rewrite lookup_assign_neq by discriminate
    | rewrite lookup_remove_eq
    | rewrite lookup_remove_neq by discriminate ].

Ltac falsy_id H :=
  cbn in H; exec; cbn; props; unfold js_or; rewrite ?H; reflexivity.

Ltac absent_id arg :=
  let H := fresh "H" in
  let H1 := fresh "H" in
  intros [H | [H | [H1 H]]];
  [ destruct arg; try discriminate H; reflexivity
  | subst arg; reflexivity
  | destruct arg; try discriminate H1; falsy_id H ].

(** ** Reads, deletes and lists without an identifier *)

Section MissingIdentifier.

Variable this : client.
Variable arg : value.

Lemma getProject_no_identifier :
  no_identifier "id" arg ->
  fst (getProject this arg) = Threw (Error "required: options.id").
Proof. unfold getProject. absent_id arg. Qed.

Lemma getExperiment_no_identifier :
  no_identifier "id" arg ->
  fst (getExperiment this arg) = Threw (Error "required: options.id").
Proof. unfold getExperiment. absent_id arg. Qed.

Lemma deleteExperiment_no_identifier :
  no_identifier "id" arg ->
  fst (deleteExperiment this arg) = Threw (Error "required: options.id").
Proof. unfold deleteExperiment. absent_id arg. Qed.

Lemma getExperiments_no_identifier :
  no_identifier "project_id" arg ->
  fst (getExperiments this arg) =
  Threw (Error "required: options.project_id").
Proof. unfold getExperiments. absent_id arg. Qed.

Lemma getAudiences_no_identifier :
  no_identifier "id" arg ->
  fst (getAudiences this arg) = Threw (Error "required: options.id").
Proof. unfold getAudiences. absent_id arg. Qed.

Lemma getDimensions_no_identifier :
  no_identifier "id" arg ->
  fst (getDimensions this arg) = Threw (Error "required: options.id").
Proof. unfold getDimensions. absent_id arg. Qed.

Lemma getGoals_no_identifier :
  no_identifier "id" arg ->
  fst (getGoals this arg) = Threw (Error "required: options.id").
Proof. unfold getGoals. absent_id arg. Qed.

(** The four methods below read [options.id] without first replacing an
    absent [options] by an empty object. *)

Lemma getVariation_no_identifier :
  no_identifier "id" arg ->
  fst (getVariation this arg) =
  if is_nullish arg then Threw TypeError
  else Threw (Error "Required: options.id").
Proof. unfold getVariation. absent_id arg. Qed.

Lemma deleteVariation_no_identifier :
  no_identifier "id" arg ->
  fst (deleteVariation this arg) =
  if is_nullish arg then Threw TypeError
  else Threw (Error "Required: options.id").
Proof. unfold deleteVariation. absent_id arg. Qed.

Lemma getAudience_no_identifier :
  no_identifier "id" arg ->
  fst (getAudience this arg) =
  if is_nullish arg then Threw TypeError
  else Threw (Error "Required: options.id").
Proof. unfold getAudience. absent_id arg. Qed.

Lemma getDimension_no_identifier :
  no_identifier "id" arg ->
  fst (getDimension this arg) =
  if is_nullish arg then Threw TypeError
  else Threw (Error "Required: options.id").
Proof. unfold getDimension. absent_id arg. Qed.

End MissingIdentifier.

(** C1 (as the code runs).  Called with no argument, or with [null],
    [getVariation], [deleteVariation], [getAudience] and [getDimension] fail
    on the property access [options.id] with a TypeError; the validation
    error [Required: options.id] is not reached.  No request is issued. *)
Theorem unguarded_reads_without_argument (this : client) (arg : value) :
  is_nullish arg = true ->
  fst (getVariation this arg) = Threw TypeError /\
  fst (deleteVariation this arg) = Threw TypeError /\
  fst (getAudience this arg) = Threw TypeError /\
  fst (getDimension this arg) = Threw TypeError /\
  fst (getVariation this arg) <> Threw (Error "Required: options.id") /\
  fst (getProject this arg) = Threw (Error "required: options.id").
Proof.
  intros N.
  assert (I : no_identifier "id" arg) by now left.
  rewrite (getVariation_no_identifier this I),
    (deleteVariation_no_identifier this I),
    (getAudience_no_identifier this I),
    (getDimension_no_identifier this I),
    (getProject_no_identifier this I), N.
  repeat split. discriminate.
Qed.

Lemma unguarded_reads_without_argument_witness :
  fst (getVariation demo VUndef) = Threw TypeError /\
  fst (getProject demo VUndef) = Threw (Error "required: options.id").
Proof.
  destruct (@unguarded_reads_without_argument demo VUndef eq_refl)
    as (V & _ & _ & _ & _ & P).
  split; assumption.
Defined.

(** ** Safe integers *)

(** What a method reads out of an argument with safe numbers has safe
    numbers: the identifier that goes into a path is one of them. *)
Lemma safe_get_prop (o : value) (k : string) :
  safe o = true -> safe (get_prop o k) = true.
Proof.
  assert (L : forall ps,
             (fix all (l : props_t) : bool :=
                match l with
                | [] => true
                | p :: rest => safe (snd p) && all rest
                end) ps = true ->
             safe match lookup k ps with Some v => v | None => VUndef end
             = true).
  { induction ps as [|[k' v'] ps IH]; [reflexivity|].
    cbn [lookup snd]. intros H. apply andb_prop in H. destruct H as [H1 H2].
    destruct (k' =? k)%string; [exact H1 | now apply IH]. }
  destruct o; try reflexivity; cbn [get_prop].
  - exact (L props).
  - intros H. cbn [safe] in H. apply andb_prop in H. now apply L.
Qed.

(** ** Bare identifiers *)

Ltac branches :=
  repeat match goal with
         | |- context [if ?c then _ else _] => destruct c eqn:?
         end;
  cbn; try reflexivity.

Ltac bare_string s := destruct s; exec; cbn; branches.
Ltac bare_number n := destruct n; exec; cbn; branches.

Section BareIdentifier.

Variable this : client.

(** X15.  A bare string stands for the object carrying it, in every read,
    delete and list. *)
Lemma bare_string_identifier (s : string) :
  let boxed k := VObj [(k, VStr s)] in
  fst (getProject this (VStr s)) = fst (getProject this (boxed "id")) /\
  fst (getExperiment this (VStr s)) = fst (getExperiment this (boxed "id")) /\
  fst (deleteExperiment this (VStr s)) =
    fst (deleteExperiment this (boxed "id")) /\
  fst (getVariation this (VStr s)) = fst (getVariation this (boxed "id")) /\
  fst (deleteVariation this (VStr s)) =
    fst (deleteVariation this (boxed "id")) /\
  fst (getAudience this (VStr s)) = fst (getAudience this (boxed "id")) /\
  fst (getDimension this (VStr s)) = fst (getDimension this (boxed "id")) /\
  fst (getExperiments this (VStr s)) =
    fst (getExperiments this (boxed "project_id")) /\
  fst (getAudiences this (VStr s)) = fst (getAudiences this (boxed "id")) /\
  fst (getDimensions this (VStr s)) = fst (getDimensions this (boxed "id")) /\
  fst (getGoals this (VStr s)) = fst (getGoals this (boxed "id")).
Proof.
  intros boxed; subst boxed.
  unfold getProject, getExperiment, deleteExperiment, getVariation,
    deleteVariation, getAudience, getDimension, getExperiments,
    getAudiences, getDimensions, getGoals.
  repeat split; bare_string s.
Qed.

(** X16.  A bare number stands for the object carrying it where the method
    tests for [typeof options === "number"]. *)
Lemma bare_number_identifier (n : Z) :
  let boxed k := VObj [(k, VNum n)] in
  fst (getProject this (VNum n)) = fst (getProject this (boxed "id")) /\
  fst (getExperiment this (VNum n)) = fst (getExperiment this (boxed "id")) /\
  fst (deleteExperiment this (VNum n)) =
    fst (deleteExperiment this (boxed "id")) /\
  fst (getExperiments this (VNum n)) =
    fst (getExperiments this (boxed "project_id")) /\
  fst (getAudiences this (VNum n)) = fst (getAudiences this (boxed "id")) /\
  fst (getDimensions this (VNum n)) = fst (getDimensions this (boxed "id")) /\
  fst (getGoals this (VNum n)) = fst (getGoals this (boxed "id")).
Proof.
  intros boxed; subst boxed.
  unfold getProject, getExperiment, deleteExperiment, getExperiments,
    getAudiences, getDimensions, getGoals.
  repeat split; bare_number n.
Qed.

(** The path of a read carries the identifier in string form. *)
Lemma getProject_path (o : value) :
  is_object o = true ->
  truthy (get_prop o "id") = true ->
  to_string (get_prop o "id") <> "" ->
  fst (getProject this o) =
  Returned
    (rest_get this
       (at_base this "projects/" ++ to_string (get_prop o "id")) "get").
Proof.
  intros O T N. apply String.eqb_neq in N.
  destruct o; try discriminate; cbn in T, N;
    unfold getProject; exec; cbn; props; unfold js_or, cat;
    rewrite T; cbn; rewrite N; reflexivity.
Qed.

Lemma getVariation_path (o : value) :
  truthy (get_prop o "id") = true ->
  fst (getVariation this o) =
  Returned
    (rest_get this
       (at_base this "variations/" ++ to_string (get_prop o "id")) "get").
Proof.
  intros T.
  destruct o; try discriminate; cbn in T;
    unfold getVariation; exec; cbn; rewrite T; reflexivity.
Qed.

End BareIdentifier.

(** C9 (as the code runs).  [getVariation], [deleteVariation], [getAudience]
    and [getDimension] take a bare identifier only when it is a string: given
    the bare number [n], a safe integer other than zero, they throw
    [Required: options.id], while the object [{id: n}] is read at
    [.../n]. *)
Theorem unguarded_reads_bare_number (this : client) (n : Z) :
  isSafeInteger n = true ->
  n <> 0 ->
  let boxed := VObj [("id", VNum n)] in
  let missing := Threw (Error "Required: options.id") in
  let path (resource : string) := at_base this resource ++ string_of_Z n in
  (fst (getVariation this (VNum n)) = missing /\
   fst (getVariation this boxed) =
     Returned (rest_get this (path "variations/") "get")) /\
  (fst (deleteVariation this (VNum n)) = missing /\
   fst (deleteVariation this boxed) =
     Returned (rest_del this (path "variations/") "delete")) /\
  (fst (getAudience this (VNum n)) = missing /\
   fst (getAudience this boxed) =
     Returned (rest_get this (path "audiences/") "get")) /\
  (fst (getDimension this (VNum n)) = missing /\
   fst (getDimension this boxed) =
     Returned (rest_get this (path "dimensions/") "get")).
Proof.
  intros _ N boxed missing path; subst boxed missing path.
  assert (T : truthy (VNum n) = true)
    by (cbn; now apply negb_true_iff, Z.eqb_neq).
  unfold getVariation, deleteVariation, getAudience, getDimension.
  repeat split; exec; cbn; cbn in T; rewrite ?T; reflexivity.
Qed.

Lemma unguarded_reads_bare_number_witness :
  isSafeInteger 5 = true /\ 5 <> 0 /\
  fst (getVariation demo (VNum 5)) = Threw (Error "Required: options.id") /\
  fst (getVariation demo (VObj [("id", VNum 5)])) =
    Returned
      (rest_get demo
         "https://www.optimizelyapis.com/experiment/v1/variations/5" "get").
Proof.
  split; [reflexivity|]. split; [lia|].
  exact (proj1 (@unguarded_reads_bare_number demo 5 eq_refl ltac:(lia))).
Defined.

(** ** JSON.stringify of an object *)

Lemma JSON_stringify_object (ps : props_t) :
  JSON_stringify (VObj ps) =
  Some ("{" ++
        join "," (map (fun m => json_member (fst m) (snd m)) (json_members ps))
        ++ "}").
Proof.
  unfold JSON_stringify at 1; fold JSON_stringify.
  do 4 f_equal.
  induction ps as [|[k v] ps IH]; trivial.
  cbn [json_members fst snd].
  destruct (JSON_stringify v); cbn [map fst snd]; now rewrite IH.
Qed.

(** A property that serializes is among the members written. *)
Lemma json_members_lookup (ps : props_t) (k : string) (v : value) (s : string) :
  lookup k ps = Some v ->
  JSON_stringify v = Some s ->
  In (k, s) (json_members ps).
Proof.
  induction ps as [|[k' v'] ps IH]; simpl; [discriminate|].
  destruct (k' =? k)%string eqn:E.
  - apply String.eqb_eq in E; subst k'. intros [= ->] ->. now left.
  - intros L S. destruct (JSON_stringify v'); [right|]; auto.
Qed.

(** Only [undefined] fails to serialize, and it is falsy. *)
Lemma truthy_serializes (v : value) :
  truthy v = true -> exists s, JSON_stringify v = Some s.
Proof.
  destruct v as [| |[|]| | | |]; try discriminate; intros _;
    unfold JSON_stringify; fold JSON_stringify; eauto.
Qed.

(** ** createProject *)

Lemma createProject_object (this : client) (o : value) :
  is_object o = true ->
  createProject this o =
  (Returned
     (rest_post this (at_base this "projects/") "post"
        (JSON_stringify (createProject_options o))),
   createProject_options o).
Proof.
  intros H. unfold createProject.
  destruct o; try discriminate; exec; cbn; props; reflexivity.
Qed.

Lemma createProject_absent (this : client) (arg : value) :
  truthy arg = false ->
  createProject this arg =
  (Returned
     (rest_post this (at_base this "projects/") "post"
        (JSON_stringify (createProject_options (VObj [])))),
   arg).
Proof.
  intros H. unfold createProject.
  destruct arg; try discriminate; exec; cbn; cbn in H; rewrite ?H;
    reflexivity.
Qed.

Lemma createProject_never_throws (this : client) (arg : value) :
  exists r, fst (createProject this arg) = Returned (Http r).
Proof.
  destruct (is_object arg) eqn:O.
  - rewrite createProject_object by trivial. unfold rest_post. cbn. eauto.
  - destruct (truthy arg) eqn:T.
    + unfold createProject, rest_post.
      destruct arg; try discriminate; exec; cbn; cbn in T; rewrite ?T;
        cbn; eauto.
    + rewrite createProject_absent by trivial. unfold rest_post. cbn. eauto.
Qed.

(** C6.  [createProject] never throws, whatever it is given, so
    [project_name] is not required.  Given a plain object, or nothing, it
    posts the serialization of an object in which [project_name] is the
    caller's value or [""], [project_status] the caller's value or
    ["Active"], [ip_filter] the caller's value or [""], and
    [include_jquery] a boolean. *)
Theorem createProject_defaults (this : client) (arg : value) :
  (exists r, fst (createProject this arg) = Returned (Http r)) /\
  ((exists ps, arg = VObj ps) \/ truthy arg = false ->
   exists fields,
     fst (createProject this arg) =
       Returned
         (rest_post this (at_base this "projects/") "post"
            (JSON_stringify (VObj fields))) /\
     lookup "project_name" fields =
       Some (js_or (get_prop arg "project_name") (VStr "")) /\
     lookup "project_status" fields =
       Some (js_or (get_prop arg "project_status") (VStr "Active")) /\
     lookup "ip_filter" fields =
       Some (js_or (get_prop arg "ip_filter") (VStr "")) /\
     lookup "include_jquery" fields =
       Some (VBool (truthy (get_prop arg "include_jquery"))) /\
     (get_prop arg "project_name" = VUndef ->
      lookup "project_name" fields = Some (VStr "")) /\
     (get_prop arg "project_status" = VUndef ->
      lookup "project_status" fields = Some (VStr "Active")) /\
     (get_prop arg "ip_filter" = VUndef ->
      lookup "ip_filter" fields = Some (VStr ""))).
Proof.
  split; [apply createProject_never_throws|].
  intros [[ps ->] | F].
  - rewrite createProject_object by trivial.
    eexists. split; [reflexivity|].
    cbn. props.
    repeat split; trivial; intros E; cbn in E; rewrite E; reflexivity.
  - rewrite createProject_absent by trivial.
    eexists. split; [reflexivity|].
    assert (G : forall k, get_prop arg k = VUndef)
      by (intros k; destruct arg; trivial; discriminate).
    rewrite !G. cbn. repeat split.
Qed.

Lemma createProject_defaults_witness :
  exists fields,
    fst (createProject demo (VObj [("project_name", VStr "site")])) =
      Returned
        (rest_post demo (at_base demo "projects/") "post"
           (JSON_stringify (VObj fields))) /\
    lookup "project_status" fields = Some (VStr "Active") /\
    lookup "ip_filter" fields = Some (VStr "") /\
    lookup "include_jquery" fields = Some (VBool false).
Proof.
  destruct (proj2 (createProject_defaults demo
                     (VObj [("project_name", VStr "site")]))
              (or_introl (ex_intro _ _ eq_refl)))
    as (fields & R & _ & S & I & J & _).
  exists fields. repeat split; assumption.
Defined.

(** ** Paths *)

Lemma append_assoc (a b c : string) : (a ++ b) ++ c = a ++ b ++ c.
Proof. induction a as [|x a IH]; simpl; [trivial | now rewrite IH]. Qed.

Lemma at_base_append (this : client) (p q : string) :
  at_base this p ++ q = at_base this (p ++ q).
Proof. unfold at_base. apply append_assoc. Qed.

Ltac paths := unfold cat; rewrite ?at_base_append, ?append_assoc.

Ltac closed_form T :=
  match goal with
  | object : is_object ?o = true |- _ =>
      destruct o; try discriminate object; cbn in T; exec; cbn; props;
      rewrite ?T; cbn; props; rewrite ?T; cbn; paths; reflexivity
  end.

(** ** The methods on an object, in closed form *)

Section ClosedForms.

Variable this : client.
Variable o : value.
Hypothesis object : is_object o = true.

Lemma createExperiment_object :
  createExperiment this o =
  let written := createExperiment_options o in
  if negb (truthy (get_prop o "edit_url"))
  then (Threw (Error "Required: options.edit_url"), written)
  else if negb (truthy (get_prop o "project_id"))
  then (Threw (Error "Required: options.project_id"), written)
  else
    (Returned
       (rest_post this
          (at_base this
             ("projects/" ++ to_string (get_prop o "project_id")
              ++ "/experiments/"))
          "post" (JSON_stringify (del_prop written "project_id"))),
     del_prop written "project_id").
Proof.
  unfold createExperiment.
  destruct (truthy (get_prop o "edit_url")) eqn:T1;
    destruct (truthy (get_prop o "project_id")) eqn:T2;
    destruct o; try discriminate; cbn in T1, T2; exec; cbn; props;
    rewrite !truthy_or_empty, ?T1, ?T2; cbn; props;
    rewrite ?truthy_or_empty, ?T1, ?T2; cbn;
    rewrite ?(js_or_truthy _ (VStr "") T2); paths; reflexivity.
Qed.

Lemma updateExperiment_object :
  updateExperiment this o =
  let written := updateExperiment_options o in
  if negb (truthy (String_ (js_or (get_prop o "id") (VStr ""))))
  then (Threw (Error "required: options.id"), written)
  else
    (Returned
       (rest_put this
          (at_base this
             ("experiments/" ++
              to_string (js_or (get_prop o "id") (VStr ""))))
          "put" (JSON_stringify (del_prop written "id"))),
     del_prop written "id").
Proof.
  unfold updateExperiment.
  destruct (truthy (String_ (js_or (get_prop o "id") (VStr "")))) eqn:T;
    closed_form T.
Qed.

Lemma createVariation_object :
  createVariation this o =
  let written := createVariation_options o in
  if negb (truthy (String_ (js_or (get_prop o "experiment_id") (VStr ""))))
  then (Threw (Error "Required: options.experiment_id"), written)
  else
    (Returned
       (rest_post this
          (at_base this
             ("experiments/" ++
              to_string (js_or (get_prop o "experiment_id") (VStr ""))
              ++ "/variations/"))
          "post" (JSON_stringify (del_prop written "experiment_id"))),
     del_prop written "experiment_id").
Proof.
  unfold createVariation.
  destruct
    (truthy (String_ (js_or (get_prop o "experiment_id") (VStr ""))))
    eqn:T;
    closed_form T.
Qed.

Lemma updateVariation_object :
  updateVariation this o =
  (if negb (truthy (get_prop o "id"))
   then Threw (Error "Required: options.id")
   else
     Returned
       (rest_put this
          (at_base this ("variations/" ++ to_string (get_prop o "id"))) "put"
          (JSON_stringify
             (VObj
                [("id", js_or (get_prop o "id") (VStr ""));
                 ("description", js_or (get_prop o "description") (VStr ""));
                 ("js_component",
                  js_or (get_prop o "js_component") (VStr ""))]))),
   o).
Proof.
  unfold updateVariation.
  destruct (truthy (get_prop o "id")) eqn:T; closed_form T.
Qed.

Lemma updateProject_object :
  updateProject this o =
  let written := with_default "id" (VBool false) o in
  (if negb (truthy (get_prop o "id"))
   then Threw (Error "required: options.id")
   else
     Returned
       (rest_put this
          (at_base this ("projects/" ++ to_string (get_prop o "id"))) "put"
          (JSON_stringify written)),
   written).
Proof.
  unfold updateProject, with_default, js_or.
  destruct (truthy (get_prop o "id")) eqn:T; closed_form T.
Qed.

Lemma updateAudience_object :
  updateAudience this o =
  let written := with_default "id" (VBool false) o in
  (if negb (truthy (get_prop o "id"))
   then Threw (Error "required: options.id")
   else
     Returned
       (rest_put this
          (at_base this ("audiences/" ++ to_string (get_prop o "id"))) "put"
          (JSON_stringify written)),
   written).
Proof.
  unfold updateAudience, with_default, js_or.
  destruct (truthy (get_prop o "id")) eqn:T; closed_form T.
Qed.

Lemma updateDimension_object :
  updateDimension this o =
  let written := with_default "id" (VBool false) o in
  (if negb (truthy (get_prop o "id"))
   then Threw (Error "required: options.id")
   else
     Returned
       (rest_put this
          (at_base this ("dimensions/" ++ to_string (get_prop o "id"))) "put"
          (JSON_stringify written)),
   written).
Proof.
  unfold updateDimension, with_default, js_or.
  destruct (truthy (get_prop o "id")) eqn:T; closed_form T.
Qed.

(** A default leaves a truthy property, and the object, as they were. *)
Lemma with_default_truthy (k : string) (d : value) :
  truthy (get_prop o k) = true -> with_default k d o = o.
Proof.
  intros T. unfold with_default. rewrite js_or_truthy by trivial.
  apply set_prop_present. now apply truthy_has_prop.
Qed.

End ClosedForms.

(** ** Creation *)

Ltac primitive_argument arg :=
  destruct arg as [| |[|]|[| |]|[|]| |];
  try discriminate; exec; cbn; reflexivity.

Section Creation.

Variable this : client.
Variable arg : value.

Lemma createExperiment_primitive :
  is_object arg = false ->
  createExperiment this arg =
  (Threw (Error "Required: options.edit_url"), arg).
Proof. unfold createExperiment. primitive_argument arg. Qed.

Lemma createVariation_primitive :
  is_object arg = false ->
  createVariation this arg =
  (Threw (Error "Required: options.experiment_id"), arg).
Proof. unfold createVariation. primitive_argument arg. Qed.

Lemma createAudience_outcome :
  createAudience this arg =
  (if negb (truthy (get_prop arg "name"))
   then Threw (Error "Required: options.name")
   else if negb (truthy (get_prop arg "id"))
   then Threw (Error "Required: options.id")
   else
     Returned
       (rest_post this
          (at_base this
             ("projects/" ++ to_string (get_prop arg "id") ++ "/audiences/"))
          "post"
          (JSON_stringify
             (VObj
                [("name", get_prop arg "name");
                 ("id", get_prop arg "id");
                 ("description",
                  js_or (get_prop arg "description") (VStr ""));
                 ("segmentation",
                  js_or (get_prop arg "segmentation") (VBool false));
                 ("conditions",
                  js_or (get_prop arg "conditions") (VArr [] []))]))),
   arg).
Proof.
  unfold createAudience.
  destruct (is_object arg) eqn:O.
  - destruct (truthy (get_prop arg "name")) eqn:T1;
      destruct (truthy (get_prop arg "id")) eqn:T2;
      destruct arg; try discriminate; cbn in T1, T2; exec;
      repeat (progress (cbn; rewrite ?T1, ?T2)); paths; reflexivity.
  - primitive_argument arg.
Qed.

Lemma createDimension_outcome :
  createDimension this arg =
  (if negb (truthy (get_prop arg "name"))
   then Threw (Error "Required: options.name")
   else if negb (truthy (get_prop arg "id"))
   then Threw (Error "Required: options.id")
   else
     Returned
       (rest_post this
          (at_base this
             ("projects/" ++ to_string (get_prop arg "id")
              ++ "/dimensions/"))
          "post"
          (JSON_stringify
             (VObj
                [("name", get_prop arg "name");
                 ("id", get_prop arg "id");
                 ("description",
                  js_or (get_prop arg "description") (VStr ""));
                 ("client_api_name",
                  js_or (get_prop arg "client_api_name") (VStr ""))]))),
   arg).
Proof.
  unfold createDimension.
  destruct (is_object arg) eqn:O.
  - destruct (truthy (get_prop arg "name")) eqn:T1;
      destruct (truthy (get_prop arg "id")) eqn:T2;
      destruct arg; try discriminate; cbn in T1, T2; exec;
      repeat (progress (cbn; rewrite ?T1, ?T2)); paths; reflexivity.
  - primitive_argument arg.
Qed.

(** The properties of the object [createExperiment] serializes. *)
Lemma createExperiment_body (k : string) :
  is_object arg = true ->
  let body := del_prop (createExperiment_options arg) "project_id" in
  has_prop body "project_id" = false /\
  (In k ["description"; "edit_url"; "custom_css"; "custom_js"] ->
   get_prop body k = js_or (get_prop arg k) (VStr "")).
Proof.
  intros O body; subst body. split; [apply has_del_eq|].
  unfold createExperiment_options.
  intros [<- | [<- | [<- | [<- | []]]]];
    rewrite get_del_neq by discriminate;
    repeat first
      [ rewrite get_with_default_eq
          by (rewrite ?with_default_object; exact O)
      | rewrite get_with_default_neq by discriminate ];
    reflexivity.
Qed.

End Creation.

(** C2 (as stated) fails for [project_id]: [createExperiment] moves it into
    the path and deletes it from the object it serializes, so the body does
    not mention [project_id] at all. *)
Lemma createExperiment_body_drops_project_id :
  truthy (get_prop sample_experiment "edit_url") = true /\
  truthy (get_prop sample_experiment "project_id") = true /\
  exists r text,
    fst (createExperiment demo sample_experiment) = Returned (Http r) /\
    url r = at_base demo "projects/1/experiments/" /\
    data r =
      JSON_stringify
        (VObj
           [("edit_url", VStr "https://example.com/");
            ("description", VStr ""); ("custom_css", VStr "");
            ("custom_js", VStr "")]) /\
    data r = Some text /\
    index 0 "project_id" text = None.
Proof.
  split; [reflexivity|]. split; [reflexivity|].
  eexists. eexists. vm_compute. repeat split.
Qed.

(** C2 (amended).  Each create operation throws its validation error when a
    mandatory field is missing or falsy, whatever else it is given.  With
    the mandatory fields supplied, [createAudience] and [createDimension]
    post an object holding [name] and [id] with the caller's values;
    [createExperiment] posts an object holding [edit_url] with the caller's
    value and no [project_id], which goes into the path.  The numbers of
    the argument are safe integers. *)
Theorem create_mandatory_fields (this : client) (arg : value) :
  safe arg = true ->
  let supplied k := truthy (get_prop arg k) = true in
  let missing k := truthy (get_prop arg k) = false in
  let posted path body :=
    Returned (rest_post this (at_base this path) "post" (JSON_stringify body))
  in
  ((missing "edit_url" ->
    fst (createExperiment this arg) =
      Threw (Error "Required: options.edit_url")) /\
   (supplied "edit_url" -> missing "project_id" ->
    fst (createExperiment this arg) =
      Threw (Error "Required: options.project_id")) /\
   (supplied "edit_url" -> supplied "project_id" ->
    let body := del_prop (createExperiment_options arg) "project_id" in
    fst (createExperiment this arg) =
      posted
        ("projects/" ++ to_string (get_prop arg "project_id")
         ++ "/experiments/")
        body /\
    get_prop body "edit_url" = get_prop arg "edit_url" /\
    has_prop body "project_id" = false)) /\
  ((missing "name" ->
    fst (createAudience this arg) = Threw (Error "Required: options.name")) /\
   (supplied "name" -> missing "id" ->
    fst (createAudience this arg) = Threw (Error "Required: options.id")) /\
   (supplied "name" -> supplied "id" ->
    fst (createAudience this arg) =
      posted
        ("projects/" ++ to_string (get_prop arg "id") ++ "/audiences/")
        (VObj
           [("name", get_prop arg "name");
            ("id", get_prop arg "id");
            ("description", js_or (get_prop arg "description") (VStr ""));
            ("segmentation",
             js_or (get_prop arg "segmentation") (VBool false));
            ("conditions",
             js_or (get_prop arg "conditions") (VArr [] []))]))) /\
  ((missing "name" ->
    fst (createDimension this arg) = Threw (Error "Required: options.name")) /\
   (supplied "name" -> missing "id" ->
    fst (createDimension this arg) = Threw (Error "Required: options.id")) /\
   (supplied "name" -> supplied "id" ->
    fst (createDimension this arg) =
      posted
        ("projects/" ++ to_string (get_prop arg "id") ++ "/dimensions/")
        (VObj
           [("name", get_prop arg "name");
            ("id", get_prop arg "id");
            ("description", js_or (get_prop arg "description") (VStr ""));
            ("client_api_name",
             js_or (get_prop arg "client_api_name") (VStr ""))]))).
Proof.
  intros _ supplied missing posted; subst supplied missing posted; cbv beta.
  split; [|split].
  - destruct (is_object arg) eqn:O.
    + rewrite createExperiment_object by exact O. cbv zeta.
      split; [|split].
      * intros ->. reflexivity.
      * intros -> ->. reflexivity.
      * intros E P. rewrite E, P. split; [reflexivity|]. split.
        -- destruct (@createExperiment_body arg "edit_url" O) as [_ G].
           rewrite G by (cbn; tauto). now apply js_or_truthy.
        -- apply has_del_eq.
    + rewrite createExperiment_primitive by exact O.
      repeat split; try reflexivity;
        destruct arg; discriminate.
  - rewrite createAudience_outcome.
    repeat split.
    + intros ->. reflexivity.
    + intros -> ->. reflexivity.
    + intros -> ->. reflexivity.
  - rewrite createDimension_outcome.
    repeat split.
    + intros ->. reflexivity.
    + intros -> ->. reflexivity.
    + intros -> ->. reflexivity.
Qed.

Lemma create_mandatory_fields_witness :
  fst (createExperiment demo (VObj [("edit_url", VStr "https://example.com/")]))
    = Threw (Error "Required: options.project_id") /\
  fst (createAudience demo sample_audience) =
    Returned
      (rest_post demo (at_base demo "projects/7/audiences/") "post"
         (JSON_stringify
            (VObj
               [("name", VStr "returning visitors"); ("id", VNum 7);
                ("description", VStr ""); ("segmentation", VBool false);
                ("conditions", VArr [] [])]))).
Proof.
  split.
  - exact (proj1 (proj2 (proj1
      (@create_mandatory_fields demo
         (VObj [("edit_url", VStr "https://example.com/")]) eq_refl)))
      eq_refl eq_refl).
  - exact (proj2 (proj2 (proj1 (proj2
      (@create_mandatory_fields demo sample_audience eq_refl))))
      eq_refl eq_refl).
Defined.

(** ** The caller's object after a call *)

(** C10.  [createExperiment], [updateExperiment] and [createVariation] work
    on the caller's own object.  [createExperiment] leaves its defaults in
    it, whether or not it goes on to throw; and once any of the three has
    returned, the identifier it moved into the path ([project_id], [id],
    [experiment_id]) is gone from the caller's object. *)
Theorem caller_object_mutated (this : client) (o : value) :
  is_object o = true ->
  let supplied k := truthy (get_prop o k) = true in
  let returns (result : outcome * value) := exists d, fst result = Returned d in
  (forall k,
     In k ["description"; "edit_url"; "custom_css"; "custom_js"] ->
     get_prop (snd (createExperiment this o)) k =
     js_or (get_prop o k) (VStr "")) /\
  (supplied "edit_url" -> supplied "project_id" ->
   returns (createExperiment this o) /\
   has_prop o "project_id" = true /\
   has_prop (snd (createExperiment this o)) "project_id" = false) /\
  (supplied "id" -> to_string (get_prop o "id") <> "" ->
   returns (updateExperiment this o) /\
   has_prop o "id" = true /\
   has_prop (snd (updateExperiment this o)) "id" = false) /\
  (supplied "experiment_id" -> to_string (get_prop o "experiment_id") <> "" ->
   returns (createVariation this o) /\
   has_prop o "experiment_id" = true /\
   has_prop (snd (createVariation this o)) "experiment_id" = false).
Proof.
  intros O supplied returns; subst supplied returns; cbv beta.
  split; [|split; [|split]].
  - intros k K. rewrite createExperiment_object by exact O. cbv zeta.
    assert (W : get_prop (createExperiment_options o) k =
                js_or (get_prop o k) (VStr "")).
    { unfold createExperiment_options.
      destruct K as [<- | [<- | [<- | [<- | []]]]];
        repeat first
          [ rewrite get_with_default_eq
              by (rewrite ?with_default_object; exact O)
          | rewrite get_with_default_neq by discriminate ];
        reflexivity. }
    destruct (negb (truthy (get_prop o "edit_url"))); [exact W|].
    destruct (negb (truthy (get_prop o "project_id"))); [exact W|].
    cbn [snd]. rewrite get_del_neq; [exact W|].
    destruct K as [<- | [<- | [<- | [<- | []]]]]; discriminate.
  - intros E P. rewrite createExperiment_object by exact O. cbv zeta.
    rewrite E, P. cbn [negb fst snd].
    split; [eauto|]. split; [now apply truthy_has_prop | apply has_del_eq].
  - intros I N. rewrite updateExperiment_object by exact O. cbv zeta.
    rewrite (js_or_truthy _ _ I), truthy_String.
    apply String.eqb_neq in N. rewrite N. cbn [negb fst snd].
    split; [eauto|]. split; [now apply truthy_has_prop | apply has_del_eq].
  - intros I N. rewrite createVariation_object by exact O. cbv zeta.
    rewrite (js_or_truthy _ _ I), truthy_String.
    apply String.eqb_neq in N. rewrite N. cbn [negb fst snd].
    split; [eauto|]. split; [now apply truthy_has_prop | apply has_del_eq].
Qed.

Lemma caller_object_mutated_witness :
  has_prop sample_experiment "project_id" = true /\
  has_prop (snd (createExperiment demo sample_experiment)) "project_id" = false.
Proof.
  exact (proj2 (proj1 (proj2
    (@caller_object_mutated demo sample_experiment eq_refl))
    eq_refl eq_refl)).
Defined.

(** ** Updates *)

(** C7 (as stated) fails for [updateProject]: the body is the serialization
    of the whole options object, [id] included, not of the options without
    their identifier. *)
Lemma updateProject_body_keeps_id :
  exists r text,
    fst (updateProject demo sample_project) = Returned (Http r) /\
    url r = at_base demo "projects/1" /\
    data r = JSON_stringify sample_project /\
    data r <> JSON_stringify (del_prop sample_project "id") /\
    data r = Some text /\
    index 0 (json_member "id" (json_quote "1")) text = Some 1%nat.
Proof.
  eexists. eexists. vm_compute. repeat split. discriminate.
Qed.

(** The properties of the object [updateExperiment] serializes. *)
Lemma updateExperiment_body (o : value) (k : string) :
  is_object o = true ->
  let body := del_prop (updateExperiment_options o) "id" in
  has_prop body "id" = false /\
  (In k ["description"; "edit_url"; "custom_css"; "custom_js"] ->
   get_prop body k = js_or (get_prop o k) (VStr "")) /\
  (~ In k ["id"; "description"; "edit_url"; "custom_css"; "custom_js"] ->
   get_prop body k = get_prop o k).
Proof.
  intros O body; subst body. split; [apply has_del_eq|].
  assert (O' : is_object (set_prop o "id"
                 (String_ (js_or (get_prop o "id") (VStr "")))) = true)
    by (now rewrite set_prop_object).
  unfold updateExperiment_options. split.
  - intros [<- | [<- | [<- | [<- | []]]]];
      rewrite get_del_neq by discriminate;
      repeat first
        [ rewrite get_with_default_eq
            by (rewrite ?with_default_object; exact O')
        | rewrite get_with_default_neq by discriminate ];
      rewrite get_set_neq by discriminate; reflexivity.
  - intros N. cbn in N.
    rewrite get_del_neq by (intros <-; tauto).
    rewrite !get_with_default_neq by (intros <-; tauto).
    rewrite get_set_neq by (intros <-; tauto). reflexivity.
Qed.

(** C7 (amended).  Given an object with an identifier, [updateVariation]
    puts the serialization of an object of exactly [id], [description] and
    [js_component]; [updateProject], [updateAudience] and [updateDimension]
    put the serialization of the options as they are, [id] included; and
    [updateExperiment] puts the options without [id] and with its four
    defaults filled in.  Each carries the identifier in the path.  The
    numbers of the argument are safe integers. *)
Theorem update_bodies (this : client) (o : value) :
  safe o = true ->
  truthy (get_prop o "id") = true ->
  let id := get_prop o "id" in
  let put_to path body :=
    Returned (rest_put this (at_base this path) "put" (JSON_stringify body)) in
  fst (updateVariation this o) =
    put_to ("variations/" ++ to_string id)
      (VObj
         [("id", id);
          ("description", js_or (get_prop o "description") (VStr ""));
          ("js_component", js_or (get_prop o "js_component") (VStr ""))]) /\
  updateProject this o = (put_to ("projects/" ++ to_string id) o, o) /\
  updateAudience this o = (put_to ("audiences/" ++ to_string id) o, o) /\
  updateDimension this o = (put_to ("dimensions/" ++ to_string id) o, o) /\
  (to_string id <> "" ->
   let body := del_prop (updateExperiment_options o) "id" in
   updateExperiment this o =
     (put_to ("experiments/" ++ to_string id) body, body) /\
   has_prop body "id" = false /\
   forall k,
     (In k ["description"; "edit_url"; "custom_css"; "custom_js"] ->
      get_prop body k = js_or (get_prop o k) (VStr "")) /\
     (~ In k ["id"; "description"; "edit_url"; "custom_css"; "custom_js"] ->
      get_prop body k = get_prop o k)).
Proof.
  intros _ T id put_to; subst id put_to; cbv beta.
  assert (O : is_object o = true) by (eapply truthy_is_object; exact T).
  rewrite updateVariation_object, updateProject_object,
    updateAudience_object, updateDimension_object by exact O.
  cbv zeta. rewrite (@with_default_truthy o "id" (VBool false) T), T.
  rewrite (js_or_truthy _ _ T). cbn [negb fst].
  repeat (split; [reflexivity|]).
  intros N. cbv zeta.
  rewrite updateExperiment_object by exact O. cbv zeta.
  rewrite (js_or_truthy _ _ T), truthy_String.
  apply String.eqb_neq in N. rewrite N. cbn [negb].
  split; [reflexivity|].
  split; [apply has_del_eq|].
  intros k. apply (@updateExperiment_body o k O).
Qed.

Lemma update_bodies_witness :
  updateProject demo sample_project =
    (Returned
       (rest_put demo (at_base demo "projects/1") "put"
          (JSON_stringify sample_project)),
     sample_project) /\
  fst (updateVariation demo (VObj [("id", VNum 3); ("weight", VNum 5000)])) =
    Returned
      (rest_put demo (at_base demo "variations/3") "put"
         (JSON_stringify
            (VObj [("id", VNum 3); ("description", VStr "");
                   ("js_component", VStr "")]))).
Proof.
  split.
  - exact (proj1 (proj2
      (@update_bodies demo sample_project eq_refl eq_refl))).
  - exact (proj1 (@update_bodies demo
                    (VObj [("id", VNum 3); ("weight", VNum 5000)])
                    eq_refl eq_refl)).
Defined.

(** ** Upserts *)

Ltac dispatched callee :=
  match goal with
  | |- context [callee ?this ?a] =>
      destruct (callee this a) as [[?|?] ?]; reflexivity
  end.

Section Upsert.

Variable this : client.
Variable arg : value.

Lemma pushExperiment_update :
  truthy (get_prop arg "id") = true ->
  pushExperiment this arg = updateExperiment this arg.
Proof.
  intros T. pose proof (truthy_has_prop _ _ T) as P.
  pose proof (set_prop_present _ _ P) as S.
  unfold pushExperiment.
  destruct arg; try discriminate; cbn in T, S; exec; cbn; props;
    rewrite (js_or_truthy _ (VStr "") T), T; cbn in S |- *;
    injection S as ->; dispatched updateExperiment.
Qed.

Lemma pushVariation_update :
  truthy (get_prop arg "id") = true ->
  pushVariation this arg = updateVariation this arg.
Proof.
  intros T. pose proof (truthy_has_prop _ _ T) as P.
  pose proof (set_prop_present _ _ P) as S.
  unfold pushVariation.
  destruct arg; try discriminate; cbn in T, S; exec; cbn; props;
    rewrite (js_or_truthy _ (VStr "") T), T; cbn in S |- *;
    injection S as ->; dispatched updateVariation.
Qed.

Lemma pushExperiment_create :
  is_object arg = true ->
  truthy (get_prop arg "id") = false ->
  pushExperiment this arg = createExperiment this (set_prop arg "id" (VStr "")).
Proof.
  intros O T. unfold pushExperiment.
  destruct arg; try discriminate; cbn in T; exec; cbn; props;
    rewrite (js_or_falsy _ (VStr "") T); cbn;
    dispatched createExperiment.
Qed.

Lemma pushVariation_create :
  is_object arg = true ->
  truthy (get_prop arg "id") = false ->
  pushVariation this arg = createVariation this (set_prop arg "id" (VStr "")).
Proof.
  intros O T. unfold pushVariation.
  destruct arg; try discriminate; cbn in T; exec; cbn; props;
    rewrite (js_or_falsy _ (VStr "") T); cbn;
    dispatched createVariation.
Qed.

(** Given no object, the upserts run the create operation on a fresh
    empty object (or on the primitive itself), and the creation throws. *)
Lemma pushExperiment_primitive :
  is_object arg = false ->
  let passed := set_prop (js_or arg (VObj [])) "id" (VStr "") in
  pushExperiment this arg =
    (Threw (Error "Required: options.edit_url"), arg) /\
  fst (createExperiment this passed) =
    Threw (Error "Required: options.edit_url").
Proof.
  unfold pushExperiment; split;
    destruct arg as [| |[|]|[| |]|[|]| |]; try discriminate; reflexivity.
Qed.

Lemma pushVariation_primitive :
  is_object arg = false ->
  let passed := set_prop (js_or arg (VObj [])) "id" (VStr "") in
  pushVariation this arg =
    (Threw (Error "Required: options.experiment_id"), arg) /\
  fst (createVariation this passed) =
    Threw (Error "Required: options.experiment_id").
Proof.
  unfold pushVariation; split;
    destruct arg as [| |[|]|[| |]|[|]| |]; try discriminate; reflexivity.
Qed.

End Upsert.

(** C3 (as stated) fails at [pushExperiment({})]: the call is handed to
    [createExperiment], which throws for the missing [edit_url]; no create
    request is issued. *)
Lemma pushExperiment_empty_object_throws :
  fst (pushExperiment demo (VObj [])) =
    Threw (Error "Required: options.edit_url") /\
  ~ exists d, fst (pushExperiment demo (VObj [])) = Returned d.
Proof.
  split; [reflexivity|]. intros [d D]. discriminate D.
Qed.

(** C3 (amended).  [pushExperiment] and [pushVariation] hand the options to
    the update operation when [id] is truthy and to the create operation
    (with [id] set to [""]) otherwise, and do nothing else: the result, the
    request and the caller's object are those of the operation chosen.  So
    [pushExperiment({})] ends in the validation error of [createExperiment],
    [pushExperiment] of [edit_url] and [project_id] posts the creation, and
    [pushExperiment({id:"42", edit_url:"...", project_id:"1"})] puts to
    [experiments/42]. *)
Theorem push_dispatch (this : client) (arg : value) :
  (truthy (get_prop arg "id") = true ->
   pushExperiment this arg = updateExperiment this arg /\
   pushVariation this arg = updateVariation this arg) /\
  (truthy (get_prop arg "id") = false ->
   let passed := set_prop (js_or arg (VObj [])) "id" (VStr "") in
   fst (pushExperiment this arg) = fst (createExperiment this passed) /\
   fst (pushVariation this arg) = fst (createVariation this passed) /\
   (is_object arg = true ->
    pushExperiment this arg = createExperiment this passed /\
    pushVariation this arg = createVariation this passed)) /\
  fst (pushExperiment this (VObj [])) =
    Threw (Error "Required: options.edit_url") /\
  fst (pushExperiment this
         (VObj [("edit_url", VStr "..."); ("project_id", VStr "1")])) =
    Returned
      (rest_post this (at_base this "projects/1/experiments/") "post"
         (JSON_stringify
            (VObj [("edit_url", VStr "..."); ("id", VStr "");
                   ("description", VStr ""); ("custom_css", VStr "");
                   ("custom_js", VStr "")]))) /\
  fst (pushExperiment this
         (VObj [("id", VStr "42"); ("edit_url", VStr "...");
                ("project_id", VStr "1")])) =
    Returned
      (rest_put this (at_base this "experiments/42") "put"
         (JSON_stringify
            (VObj [("edit_url", VStr "..."); ("project_id", VStr "1");
                   ("description", VStr ""); ("custom_css", VStr "");
                   ("custom_js", VStr "")]))).
Proof.
  split; [|split; [|split; [|split]]].
  - intros T. split.
    + now apply pushExperiment_update.
    + now apply pushVariation_update.
  - intros T passed; subst passed.
    destruct (is_object arg) eqn:O.
    + rewrite (js_or_truthy _ _ (object_truthy _ O)).
      rewrite pushExperiment_create, pushVariation_create by assumption.
      repeat split.
    + destruct (pushExperiment_primitive this arg O) as [-> ->].
      destruct (pushVariation_primitive this arg O) as [-> ->].
      repeat split; discriminate.
  - reflexivity.
  - unfold pushExperiment, createExperiment. exec. cbn. paths. reflexivity.
  - unfold pushExperiment, updateExperiment. exec. cbn. paths. reflexivity.
Qed.

Lemma push_dispatch_witness :
  pushExperiment demo
    (VObj [("id", VStr "42"); ("edit_url", VStr "...");
           ("project_id", VStr "1")]) =
  updateExperiment demo
    (VObj [("id", VStr "42"); ("edit_url", VStr "...");
           ("project_id", VStr "1")]) /\
  pushVariation demo (VObj [("experiment_id", VNum 9)]) =
  createVariation demo (VObj [("experiment_id", VNum 9); ("id", VStr "")]).
Proof.
  split.
  - exact (proj1 (proj1
      (push_dispatch demo
         (VObj [("id", VStr "42"); ("edit_url", VStr "...");
                ("project_id", VStr "1")])) eq_refl)).
  - exact (proj2 (proj2 (proj2 (proj1 (proj2
      (push_dispatch demo (VObj [("experiment_id", VNum 9)]))) eq_refl))
      eq_refl)).
Defined.

(** ** Percent-encoding *)

Lemma hex_digit_unreserved (n : N) :
  (n < 16)%N -> uri_unreserved (hex_digit true n) = true.
Proof.
  intros H. destruct n as [|p]; [reflexivity|].
  do 5 (try (destruct p as [p|p|]; try reflexivity; try lia)).
Qed.

Lemma percent_encode_cons (c : ascii) (rest : string) :
  percent_encode (String c rest) =
  if uri_unreserved c then String c (percent_encode rest)
  else
    String "%"
      (String (hex_digit true (N_of_ascii c / 16))
         (String (hex_digit true (N_of_ascii c mod 16))
            (percent_encode rest))).
Proof. reflexivity. Qed.

Lemma unreserved_safe (c : ascii) :
  uri_unreserved c = true -> uri_safe c = true.
Proof. unfold uri_safe. now intros ->. Qed.

(** What [encodeURIComponent] returns holds only unreserved characters and
    percent signs. *)
Lemma percent_encode_safe (s : string) :
  all_chars uri_safe (percent_encode s) = true.
Proof.
  induction s as [|c s IH]; trivial.
  rewrite percent_encode_cons.
  destruct (uri_unreserved c) eqn:U; cbn [all_chars].
  - now rewrite (unreserved_safe _ U), IH.
  - rewrite IH.
    assert (D : (N_of_ascii c / 16 < 16)%N).
    { apply N.Div0.div_lt_upper_bound. apply (N_ascii_bounded c). }
    assert (R : (N_of_ascii c mod 16 < 16)%N) by (apply N.mod_lt; lia).
    rewrite (unreserved_safe _ (hex_digit_unreserved D)).
    rewrite (unreserved_safe _ (hex_digit_unreserved R)).
    reflexivity.
Qed.

(** Unreserved text is left as it is. *)
Lemma percent_encode_unreserved (s : string) :
  all_chars uri_unreserved s = true -> percent_encode s = s.
Proof.
  induction s as [|c s IH]; trivial.
  rewrite percent_encode_cons. cbn [all_chars]. intros H.
  apply andb_true_iff in H as [-> H]. now rewrite IH.
Qed.

(** ** Results and statistics *)

Section DimensionFilter.

Variable this : client.
Variable o : value.
Hypothesis object : is_object o = true.
Hypothesis experiment : truthy (get_prop o "id") = true.
Hypothesis experiment_text : to_string (get_prop o "id") <> "".

Lemma getStats_object :
  fst (getStats this o) = dimension_outcome this o "/stats".
Proof.
  unfold dimension_outcome, filtered.
  apply String.eqb_neq in experiment_text.
  unfold getStats.
  destruct o; try discriminate; cbn in experiment, experiment_text;
    exec; cbn; props; rewrite (js_or_truthy _ (VStr "") experiment);
    cbn; rewrite experiment_text; cbn; props;
    repeat match goal with
           | |- context [if ?c then _ else _] => destruct c
           end;
    cbn; paths; reflexivity.
Qed.

Lemma getResults_object :
  fst (getResults this o) = dimension_outcome this o "/results".
Proof.
  unfold dimension_outcome, filtered.
  apply String.eqb_neq in experiment_text.
  unfold getResults.
  destruct o; try discriminate; cbn in experiment, experiment_text;
    exec; cbn; props; rewrite (js_or_truthy _ (VStr "") experiment);
    cbn; rewrite experiment_text; cbn; props;
    repeat match goal with
           | |- context [if ?c then _ else _] => destruct c
           end;
    cbn; paths; reflexivity.
Qed.

End DimensionFilter.

(** C5.  Given an experiment and a dimension filter, [getResults] and
    [getStats] throw the validation error when the filter lacks [id] or
    [value]; otherwise they request the experiment's results or statistics
    with both values percent-encoded into the query as [dimension_id] and
    [dimension_value].  The numbers of the argument are safe integers. *)
Theorem dimension_filter (this : client) (o dimension : value) :
  safe o = true ->
  is_object o = true ->
  truthy (get_prop o "id") = true ->
  to_string (get_prop o "id") <> "" ->
  get_prop o "dimension" = dimension ->
  truthy dimension = true ->
  let both (result : outcome) :=
    fst (getResults this o) = result /\ fst (getStats this o) = result in
  let encoded k := encodeURIComponent (get_prop dimension k) in
  let requested suffix :=
    Returned
      (rest_get this
         (at_base this
            ("experiments/" ++ to_string (get_prop o "id") ++ suffix ++
             "?dimension_id=" ++ encoded "id" ++
             "&dimension_value=" ++ encoded "value"))
         "GET") in
  (truthy (get_prop dimension "id") = false ->
   both (Threw (Error "required: options.dimension.id"))) /\
  (truthy (get_prop dimension "id") = true ->
   truthy (get_prop dimension "value") = false ->
   both (Threw (Error "required: options.dimension.value"))) /\
  (truthy (get_prop dimension "id") = true ->
   truthy (get_prop dimension "value") = true ->
   fst (getResults this o) = requested "/results" /\
   fst (getStats this o) = requested "/stats" /\
   all_chars uri_safe (encoded "id") = true /\
   all_chars uri_safe (encoded "value") = true) /\
  fst (getStats this
         (VObj [("id", VStr "7");
                ("dimension",
                 VObj [("id", VStr "d1"); ("value", VStr "v1")])])) =
    Returned
      (rest_get this
         (at_base this
            "experiments/7/stats?dimension_id=d1&dimension_value=v1")
         "GET").
Proof.
  intros _ O I N D T both encoded requested; subst both encoded requested.
  cbv beta.
  rewrite (@getResults_object this o O I N), (@getStats_object this o O I N).
  unfold dimension_outcome, filtered. rewrite D, T.
  split; [|split; [|split]].
  - intros ->. split; reflexivity.
  - intros -> ->. split; reflexivity.
  - intros -> ->. repeat split; apply percent_encode_safe.
  - rewrite getStats_object by (reflexivity || discriminate). reflexivity.
Qed.

Lemma dimension_filter_witness :
  fst (getResults demo sample_stats) =
    Returned
      (rest_get demo
         (at_base demo
            "experiments/7/results?dimension_id=12&dimension_value=a%20b%26c")
         "GET") /\
  fst (getStats demo
         (VObj [("id", VNum 7); ("dimension", VObj [("id", VNum 12)])])) =
    Threw (Error "required: options.dimension.value").
Proof.
  split.
  - exact (proj1 (proj1 (proj2 (proj2
      (@dimension_filter demo sample_stats _ eq_refl eq_refl eq_refl
         ltac:(discriminate) eq_refl eq_refl))) eq_refl eq_refl)).
  - exact (proj2 (proj1 (proj2
      (@dimension_filter demo
         (VObj [("id", VNum 7); ("dimension", VObj [("id", VNum 12)])])
         _ eq_refl eq_refl eq_refl ltac:(discriminate) eq_refl eq_refl))
      eq_refl eq_refl)).
Defined.

(** ** The request adapter *)

Lemma deliver_settled (emitted : list event) (p : promise) :
  settled p = true -> deliver emitted p = p.
Proof.
  revert p. induction emitted as [|e emitted IH]; intros p S; trivial.
  unfold deliver in *. cbn [fold_left].
  assert (E : on_event e p = p)
    by (destruct p; [discriminate| |]; now destruct e).
  rewrite E. now apply IH.
Qed.

Lemma deliver_app (before after : list event) (p : promise) :
  deliver (before ++ after) p = deliver after (deliver before p).
Proof. unfold deliver. apply fold_left_app. Qed.

Lemma deliver_first (emitted : list event) :
  deliver emitted Pending = first_resolution emitted.
Proof.
  unfold first_resolution.
  induction emitted as [|e emitted IH]; trivial.
  change (deliver (e :: emitted) Pending)
    with (deliver emitted (on_event e Pending)).
  destruct e; cbn [find terminal on_event resolve reject resolution];
    try (now apply deliver_settled).
  exact IH.
Qed.

Lemma first_resolution_settled (emitted : list event) :
  settled (first_resolution emitted) = existsb terminal emitted.
Proof.
  unfold first_resolution.
  induction emitted as [|e emitted IH]; trivial.
  destruct e; cbn [find terminal existsb orb resolution settled]; trivial.
Qed.

(** C8.  A call through the adapter reaches the transport once, whatever
    the transport then emits.  The promise settles with the first of
    [success], [fail], [error], [abort] and [timeout] to be emitted:
    fulfilled with the body on [success], rejected with the body, the
    error, a cancellation or a timeout marker otherwise.  Whatever is
    emitted after that leaves the promise as it is; with no such event the
    promise stays pending. *)
Theorem adapter_settles_once (originalMethod : transport) (args : request)
    (log : list request) (emitted : list event) :
  originalMethod args = inr emitted ->
  let '(p, log') := EventEmitterPromisifier originalMethod args log in
  log' = (log ++ [args])%list /\
  p = first_resolution emitted /\
  settled p = existsb terminal emitted /\
  (forall before e after,
     emitted = (before ++ e :: after)%list ->
     existsb terminal before = false ->
     terminal e = true ->
     p = resolution e) /\
  (forall before after,
     emitted = (before ++ after)%list ->
     settled (deliver before Pending) = true ->
     p = deliver before Pending).
Proof.
  intros E. unfold EventEmitterPromisifier. rewrite E.
  split; [reflexivity|].
  split; [apply deliver_first|].
  split; [rewrite deliver_first; apply first_resolution_settled|].
  split.
  - intros before e after -> B T.
    rewrite deliver_app.
    assert (P : deliver before Pending = Pending).
    { rewrite deliver_first.
      pose proof (first_resolution_settled before) as S. rewrite B in S.
      now destruct (first_resolution before). }
    rewrite P.
    change (deliver (e :: after) Pending)
      with (deliver after (on_event e Pending)).
    destruct e; try discriminate T; now apply deliver_settled.
  - intros before after -> S. rewrite deliver_app. now apply deliver_settled.
Qed.

Lemma adapter_settles_once_witness :
  let emitted := [OtherEvent "404"; Fail (VStr "not found");
                  OtherEvent "complete"; Timeout] in
  let sample := {| via := getAsync; url := "u"; method := "get";
                   headers := []; data := None |} in
  EventEmitterPromisifier (fun _ => inr emitted) sample [] =
  (Rejected (Payload (VStr "not found")), [sample]).
Proof.
  intros emitted sample.
  pose proof (@adapter_settles_once (fun _ => inr emitted) sample []
                emitted eq_refl) as H.
  destruct (EventEmitterPromisifier (fun _ => inr emitted) sample [])
    as [p log'].
  destruct H as (-> & -> & _). reflexivity.
Defined.

(** When the original method throws, the promise is rejected with what was
    thrown. *)
Lemma adapter_rejects_thrown (originalMethod : transport) (args : request)
    (log : list request) (e : error) :
  originalMethod args = inl e ->
  EventEmitterPromisifier originalMethod args log =
  (Rejected (Thrown e), (log ++ [args])%list).
Proof. intros E. unfold EventEmitterPromisifier. now rewrite E. Qed.

(** ** Finding an experiment by its description *)

Lemma described_strict_eq (d : string) (entry : value) :
  strict_eq (get_prop entry "description") (VStr d) = described d entry.
Proof. unfold described. now destruct (get_prop entry "description"). Qed.

Lemma scan_first_described (d : string) (entries : list value) :
  forallb (fun entry => negb (is_nullish entry)) entries = true ->
  scan (VStr d) entries = inr (first_described d entries).
Proof.
  unfold first_described.
  induction entries as [|entry entries IH]; trivial.
  cbn [forallb scan find]. intros H.
  apply andb_true_iff in H as [N H]. apply negb_true_iff in N.
  rewrite N, described_strict_eq.
  destruct (described d entry); [reflexivity | now apply IH].
Qed.

Lemma by_description_decoded (JSON_parse : string -> option value)
    (d : string) (data collection : value) :
  decoded JSON_parse data = Some collection ->
  by_description JSON_parse (VStr d) data = scan (VStr d) (for_in collection).
Proof.
  unfold by_description, decoded, is_type.
  destruct data; cbn; try (now intros [= <-]).
  change (to_string (VStr s)) with s. now intros ->.
Qed.

Lemma getExperiments_listing (this : client) (pid : string) :
  pid <> "" ->
  getExperiments this (VStr pid) =
  (Returned
     (rest_get this (at_base this ("projects/" ++ pid ++ "/experiments/"))
        "get"),
   VStr pid).
Proof.
  intros N. apply String.eqb_neq in N.
  assert (T : truthy (VStr pid) = true) by (cbn; now rewrite N).
  unfold getExperiments. exec. cbn -[append].
  rewrite (js_or_truthy _ (VStr "") T).
  change (to_string (VStr pid)) with pid. rewrite N. cbn -[append].
  paths. reflexivity.
Qed.

Lemma first_described_first (d : string) (before after : list value)
    (entry : value) :
  forallb (fun e => negb (described d e)) before = true ->
  described d entry = true ->
  first_described d (before ++ entry :: after) = entry.
Proof.
  unfold first_described. intros B M.
  induction before as [|b before IH]; cbn [app find].
  - now rewrite M.
  - cbn [forallb] in B. apply andb_true_iff in B as [Bn B].
    apply negb_true_iff in Bn. rewrite Bn. now apply IH.
Qed.

Lemma first_described_none (d : string) (entries : list value) :
  forallb (fun e => negb (described d e)) entries = true ->
  first_described d entries = VNull.
Proof.
  unfold first_described. intros B.
  induction entries as [|e entries IH]; trivial.
  cbn [forallb] in B. apply andb_true_iff in B as [Bn B].
  apply negb_true_iff in Bn. cbn [find]. rewrite Bn. now apply IH.
Qed.

(** C4.  Given a project identifier and a description, both non-empty
    strings, [getExperimentByDescription] returns the promise of the one
    request [getExperiments] makes for that project, chained through a
    callback.  When the listing arrives, as text to decode or already
    decoded, and none of its entries is [null], the promise is fulfilled
    with the first entry whose [description] is exactly the string asked
    for, and with [null] when there is none. *)
Theorem getExperimentByDescription_first_match
    (JSON_parse : string -> option value) (this : client)
    (projectId description : string) :
  projectId <> "" ->
  description <> "" ->
  exists listing found,
    fst (getExperiments this (VStr projectId)) = Returned (Http listing) /\
    url listing =
      at_base this ("projects/" ++ projectId ++ "/experiments/") /\
    getExperimentByDescription JSON_parse this
      (VStr projectId) (VStr description) =
      (Returned (Then (Http listing) found), VStr projectId) /\
    requests (Then (Http listing) found) = [listing] /\
    forall data collection,
      decoded JSON_parse data = Some collection ->
      forallb (fun entry => negb (is_nullish entry)) (for_in collection)
        = true ->
      let answer := first_described description (for_in collection) in
      found data = inr answer /\
      (forall before entry after,
         for_in collection = (before ++ entry :: after)%list ->
         forallb (fun e => negb (described description e)) before = true ->
         get_prop entry "description" = VStr description ->
         answer = entry) /\
      (forallb (fun e => negb (described description e)) (for_in collection)
         = true ->
       answer = VNull) /\
      forall (t : transport) (log : list request) emitted,
        t listing = inr emitted ->
        first_resolution emitted = Fulfilled data ->
        settle t (Then (Http listing) found) log =
          (Fulfilled answer, (log ++ [listing])%list).
Proof.
  intros P D.
  assert (TD : truthy (VStr description) = true)
    by (cbn; apply String.eqb_neq in D; now rewrite D).
  assert (TP : truthy (VStr projectId) = true)
    by (cbn; apply String.eqb_neq in P; now rewrite P).
  pose proof (getExperiments_listing this P) as L.
  eexists. exists (by_description JSON_parse (VStr description)).
  split; [rewrite L; reflexivity|].
  split; [reflexivity|].
  split.
  { unfold getExperimentByDescription. exec. cbn -[append getExperiments].
    rewrite (js_or_truthy _ (VStr "") TP).
    change (to_string (VStr projectId)) with projectId.
    apply String.eqb_neq in P. rewrite P. cbn -[append getExperiments].
    apply String.eqb_neq in D. rewrite D. cbn -[append getExperiments].
    change (String_ (VStr projectId)) with (VStr projectId).
    rewrite L. reflexivity. }
  split; [reflexivity|].
  intros data collection Dec NN answer.
  assert (F : by_description JSON_parse (VStr description) data = inr answer).
  { rewrite (by_description_decoded _ _ _ Dec).
    now apply scan_first_described. }
  split; [exact F|].
  split; [|split].
  - intros before entry after E B G. subst answer. rewrite E.
    apply first_described_first; trivial.
    unfold described. rewrite G. apply String.eqb_refl.
  - intros B. now apply first_described_none.
  - intros t log emitted Em R.
    cbn [settle]. unfold EventEmitterPromisifier.
    rewrite Em, deliver_first, R, F. reflexivity.
Qed.

Lemma getExperimentByDescription_first_match_witness :
  exists listing found,
    getExperimentByDescription parse_listing_ABC demo (VStr "9") (VStr "B") =
      (Returned (Then (Http listing) found), VStr "9") /\
    found listing_ABC = inr (experiment "B") /\
    (forall text, JSON_stringify listing_ABC = Some text ->
                  found (VStr text) = inr (experiment "B")).
Proof.
  destruct (@getExperimentByDescription_first_match parse_listing_ABC demo
              "9" "B" ltac:(discriminate) ltac:(discriminate))
    as (listing & found & _ & _ & G & _ & F).
  exists listing, found. split; [exact G|]. split.
  - exact (proj1 (F listing_ABC listing_ABC eq_refl eq_refl)).
  - intros text E.
    refine (proj1 (F (VStr text) listing_ABC _ eq_refl)).
    cbn [decoded]. unfold parse_listing_ABC. rewrite E.
    now rewrite String.eqb_refl.
Defined.

Lemma getExperimentByDescription_no_match :
  by_description parse_listing_ABC (VStr "Z") listing_ABC = inr VNull /\
  by_description parse_listing_ABC (VStr "b") listing_ABC = inr VNull.
Proof. split; reflexivity. Qed.

(** * Further properties *)

(** ** The shape of every request *)

Lemma prefix_append (a b : string) : prefix a (a ++ b) = true.
Proof.
  induction a as [|c a IH]; simpl; [now destruct b|].
  destruct (ascii_dec c c); [exact IH | contradiction].
Qed.

Lemma prefix_at_base (this : client) (p : string) :
  prefix (to_string (baseUrl this)) (at_base this p) = true.
Proof. apply prefix_append. Qed.

Lemma stringify_defined (v : value) :
  is_nullish v = false -> JSON_stringify v <> None.
Proof.
  destruct v as [| |[|]| | | |]; try discriminate; intros _;
    unfold JSON_stringify; fold JSON_stringify; discriminate.
Qed.

Ltac case_ifs :=
  repeat match goal with
         | |- context [if ?c then _ else _] =>
             lazymatch c with
             | context [if _ then _ else _] => fail
             | _ => destruct c eqn:?
             end
         end.

Ltac shape :=
  intros; eexists; split; [cbn [requests]; reflexivity|];
  split; [cbn; tauto|]; split; [reflexivity|];
  split; [cbn [url]; paths; apply prefix_at_base|];
  unfold has_body; cbn [data via carries_body];
  first
    [ reflexivity
    | match goal with
      | |- context [JSON_stringify ?v] =>
          let E := fresh in
          destruct (JSON_stringify v) eqn:E; [reflexivity|];
          exfalso; revert E; apply stringify_defined; reflexivity
      end ].

Ltac every_argument arg :=
  unfold shaped, rest_post, rest_get, rest_put, rest_del;
  destruct arg as [| |[|]|[| |]|[|]| |]; exec; cbn -[js_or append]; props;
  case_ifs; cbn -[js_or append]; (intros [= <-] || discriminate);
  shape.

Lemma shaped_more (this : client) (verbs more : list rest_method)
    (d : deferred) :
  (forall v, In v verbs -> In v more) ->
  shaped this verbs d -> shaped this more d.
Proof.
  intros I (r & R & V & H). exists r. split; [exact R|].
  split; [now apply I | exact H].
Qed.

Section Shapes.

Variable this : client.

Lemma createProject_shaped (arg : value) (d : deferred) :
  fst (createProject this arg) = Returned d -> shaped this [postAsync] d.
Proof. unfold createProject. every_argument arg. Qed.

Lemma getProject_shaped (arg : value) (d : deferred) :
  fst (getProject this arg) = Returned d -> shaped this [getAsync] d.
Proof. unfold getProject. every_argument arg. Qed.

Lemma updateProject_shaped (arg : value) (d : deferred) :
  fst (updateProject this arg) = Returned d -> shaped this [putAsync] d.
Proof. unfold updateProject. every_argument arg. Qed.

Lemma createExperiment_shaped (arg : value) (d : deferred) :
  fst (createExperiment this arg) = Returned d -> shaped this [postAsync] d.
Proof. unfold createExperiment. every_argument arg. Qed.

Lemma getExperiment_shaped (arg : value) (d : deferred) :
  fst (getExperiment this arg) = Returned d -> shaped this [getAsync] d.
Proof. unfold getExperiment. every_argument arg. Qed.

Lemma updateExperiment_shaped (arg : value) (d : deferred) :
  fst (updateExperiment this arg) = Returned d -> shaped this [putAsync] d.
Proof. unfold updateExperiment. every_argument arg. Qed.

Lemma pushExperiment_shaped (arg : value) (d : deferred) :
  fst (pushExperiment this arg) = Returned d ->
  shaped this [putAsync; postAsync] d.
Proof.
  destruct (truthy (get_prop arg "id")) eqn:T.
  - rewrite pushExperiment_update by exact T. intros H.
    apply updateExperiment_shaped in H. revert H. apply shaped_more.
    intros v [<- | []]. now left.
  - destruct (is_object arg) eqn:O.
    + rewrite pushExperiment_create by assumption. intros H.
      apply createExperiment_shaped in H. revert H. apply shaped_more.
      intros v [<- | []]. right. now left.
    + destruct (pushExperiment_primitive this arg O) as [-> _].
      discriminate.
Qed.

Lemma getExperiments_shaped (arg : value) (d : deferred) :
  fst (getExperiments this arg) = Returned d -> shaped this [getAsync] d.
Proof. unfold getExperiments. every_argument arg. Qed.

Lemma getExperimentByDescription_shaped
    (JSON_parse : string -> option value) (arg arg1 : value) (d : deferred) :
  fst (getExperimentByDescription JSON_parse this arg arg1) = Returned d ->
  shaped this [getAsync] d.
Proof.
  unfold getExperimentByDescription, getExperiments. every_argument arg.
Qed.

Lemma deleteExperiment_shaped (arg : value) (d : deferred) :
  fst (deleteExperiment this arg) = Returned d -> shaped this [delAsync] d.
Proof. unfold deleteExperiment. every_argument arg. Qed.

Lemma getResults_shaped (arg : value) (d : deferred) :
  fst (getResults this arg) = Returned d -> shaped this [getAsync] d.
Proof. unfold getResults. every_argument arg. Qed.

Lemma getStats_shaped (arg : value) (d : deferred) :
  fst (getStats this arg) = Returned d -> shaped this [getAsync] d.
Proof. unfold getStats. every_argument arg. Qed.

Lemma createVariation_shaped (arg : value) (d : deferred) :
  fst (createVariation this arg) = Returned d -> shaped this [postAsync] d.
Proof. unfold createVariation. every_argument arg. Qed.

Lemma getVariation_shaped (arg : value) (d : deferred) :
  fst (getVariation this arg) = Returned d -> shaped this [getAsync] d.
Proof. unfold getVariation. every_argument arg. Qed.

Lemma updateVariation_shaped (arg : value) (d : deferred) :
  fst (updateVariation this arg) = Returned d -> shaped this [putAsync] d.
Proof. unfold updateVariation. every_argument arg. Qed.

Lemma pushVariation_shaped (arg : value) (d : deferred) :
  fst (pushVariation this arg) = Returned d ->
  shaped this [putAsync; postAsync] d.
Proof.
  destruct (truthy (get_prop arg "id")) eqn:T.
  - rewrite pushVariation_update by exact T. intros H.
    apply updateVariation_shaped in H. revert H. apply shaped_more.
    intros v [<- | []]. now left.
  - destruct (is_object arg) eqn:O.
    + rewrite pushVariation_create by assumption. intros H.
      apply createVariation_shaped in H. revert H. apply shaped_more.
      intros v [<- | []]. right. now left.
    + destruct (pushVariation_primitive this arg O) as [-> _].
      discriminate.
Qed.

Lemma deleteVariation_shaped (arg : value) (d : deferred) :
  fst (deleteVariation this arg) = Returned d -> shaped this [delAsync] d.
Proof. unfold deleteVariation. every_argument arg. Qed.

Lemma getAudience_shaped (arg : value) (d : deferred) :
  fst (getAudience this arg) = Returned d -> shaped this [getAsync] d.
Proof. unfold getAudience. every_argument arg. Qed.

Lemma createAudience_shaped (arg : value) (d : deferred) :
  fst (createAudience this arg) = Returned d -> shaped this [postAsync] d.
Proof. unfold createAudience. every_argument arg. Qed.

Lemma updateAudience_shaped (arg : value) (d : deferred) :
  fst (updateAudience this arg) = Returned d -> shaped this [putAsync] d.
Proof. unfold updateAudience. every_argument arg. Qed.

Lemma getAudiences_shaped (arg : value) (d : deferred) :
  fst (getAudiences this arg) = Returned d -> shaped this [getAsync] d.
Proof. unfold getAudiences. every_argument arg. Qed.

Lemma getDimension_shaped (arg : value) (d : deferred) :
  fst (getDimension this arg) = Returned d -> shaped this [getAsync] d.
Proof. unfold getDimension. every_argument arg. Qed.

Lemma createDimension_shaped (arg : value) (d : deferred) :
  fst (createDimension this arg) = Returned d -> shaped this [postAsync] d.
Proof. unfold createDimension. every_argument arg. Qed.

Lemma updateDimension_shaped (arg : value) (d : deferred) :
  fst (updateDimension this arg) = Returned d -> shaped this [putAsync] d.
Proof. unfold updateDimension. every_argument arg. Qed.

Lemma getDimensions_shaped (arg : value) (d : deferred) :
  fst (getDimensions this arg) = Returned d -> shaped this [getAsync] d.
Proof. unfold getDimensions. every_argument arg. Qed.

Lemma getGoals_shaped (arg : value) (d : deferred) :
  fst (getGoals this arg) = Returned d -> shaped this [getAsync] d.
Proof. unfold getGoals. every_argument arg. Qed.

End Shapes.


Ltac entries I :=
  lazymatch type of I with
  | _ \/ _ =>
      let E := fresh "E" in
      destruct I as [E | I]; [injection E as <- <- | entries I]
  | False => destruct I
  end.
Ltac tabled I :=
  cbn [operations In] in I;
  entries I;
    [ apply createProject_shaped | apply getProject_shaped
    | apply updateProject_shaped
    | cbn [fst]; unfold getProjects, rest_get; intros [= <-]; shape
    | apply createExperiment_shaped | apply getExperiment_shaped
    | apply updateExperiment_shaped | apply pushExperiment_shaped
    | apply getExperiments_shaped | apply getExperimentByDescription_shaped
    | apply deleteExperiment_shaped | apply getResults_shaped
    | apply getStats_shaped | apply createVariation_shaped
    | apply getVariation_shaped | apply updateVariation_shaped
    | apply pushVariation_shaped | apply deleteVariation_shaped
    | apply getAudience_shaped | apply createAudience_shaped
    | apply updateAudience_shaped | apply getAudiences_shaped
    | apply getDimension_shaped | apply createDimension_shaped
    | apply updateDimension_shaped | apply getDimensions_shaped
    | apply getGoals_shaped ].

(** X1.  Whatever argument a method of the client is given, if it returns
    at all it returns the promise of exactly one request, made with the
    [restler] method that fits the operation.  That request carries the
    client's own headers, goes to an address that starts with the client's
    base address, and has a body exactly when it is a POST or a PUT. *)
Theorem every_request_shaped (JSON_parse : string -> option value)
    (this : client) (arg1 : value) (verbs : list rest_method)
    (operation : value -> outcome * value) :
  In (verbs, operation) (operations JSON_parse this arg1) ->
  forall arg d, fst (operation arg) = Returned d -> shaped this verbs d.
Proof.
  intros I arg d. tabled I.
Qed.

Lemma every_request_shaped_witness :
  exists d,
    fst (createAudience demo sample_audience) = Returned d /\
    shaped demo [postAsync] d.
Proof.
  eexists. split; [reflexivity|].
  refine (@every_request_shaped parse_listing_ABC demo VUndef [postAsync]
            (createAudience demo) _ sample_audience _ eq_refl).
  do 19 right. now left.
Defined.

(** ** The client a constructor call gives *)

Lemma guarded_option (opts : value) (k : string) :
  truthy opts && truthy (get_prop opts k) = truthy (get_prop opts k).
Proof. destruct opts; cbn; now rewrite ?andb_false_r. Qed.

(** X2.  The constructor throws [Required: apiToken] for a falsy token.
    Otherwise it gives a client that keeps the token in string form and
    takes its base address from [options.url] when that is truthy, the
    documented address otherwise; and every request every method of that
    client makes goes to an address under that base address with exactly
    two headers: the token, as [Authorization: Bearer] when
    [options.OAuth2] is truthy and as [Token] otherwise, and
    [Content-Type: application/json]. *)
Theorem constructed_client (JSON_parse : string -> option value)
    (token opts : value) :
  let base :=
    if truthy (get_prop opts "url") then get_prop opts "url"
    else VStr "https://www.optimizelyapis.com/experiment/v1/" in
  let sent :=
    [ if truthy (get_prop opts "OAuth2")
      then ("Authorization", "Bearer " ++ to_string token)
      else ("Token", to_string token);
      ("Content-Type", "application/json") ] in
  (truthy token = false ->
   OptimizelyClient token opts = inl (Error "Required: apiToken")) /\
  (truthy token = true ->
   exists this,
     OptimizelyClient token opts = inr this /\
     apiToken this = to_string token /\
     baseUrl this = base /\
     forall arg1 verbs operation,
       In (verbs, operation) (operations JSON_parse this arg1) ->
       forall arg d,
         fst (operation arg) = Returned d ->
         exists r,
           requests d = [r] /\
           headers r = sent /\
           prefix (to_string base) (url r) = true).
Proof.
  intros base sent; subst base sent. unfold OptimizelyClient.
  rewrite !guarded_option.
  split; [now intros ->|].
  intros ->. cbn [negb]. eexists. split; [reflexivity|].
  split; [reflexivity|]. split; [reflexivity|].
  intros arg1 verbs operation I arg d R.
  match goal with
  | I : In _ (operations _ ?c _) |- _ =>
      assert (S : shaped c verbs d) by (revert R; tabled I)
  end.
  destruct S as (r & Q & _ & H & P & _).
  exists r. split; [exact Q|]. split.
  - rewrite H. cbn [baseHeaders].
    destruct (truthy (get_prop opts "OAuth2")); reflexivity.
  - exact P.
Qed.

Lemma constructed_client_witness :
  exists this,
    OptimizelyClient (VStr "secret") (VObj [("OAuth2", VBool true)]) =
      inr this /\
    baseHeaders this =
      [("Authorization", "Bearer secret");
       ("Content-Type", "application/json")].
Proof.
  destruct (proj2 (constructed_client parse_listing_ABC (VStr "secret")
                     (VObj [("OAuth2", VBool true)])) eq_refl)
    as (this & C & _).
  exists this. split; [exact C|].
  injection C as <-. reflexivity.
Defined.

(** ** What the operations do to the caller's object *)

Ltac untouched arg :=
  destruct arg as [| |[|]|[| |]|[|]| |]; exec; cbn -[js_or append];
  case_ifs; reflexivity.

(** X3.  [getVariation], [deleteVariation], [getAudience], [getDimension],
    [updateVariation], [createAudience] and [createDimension] only read
    their argument: whatever they are given and whether they throw or
    return, the caller's object is afterwards as it was. *)
Theorem readers_leave_argument (this : client) (arg : value) :
  snd (getVariation this arg) = arg /\
  snd (deleteVariation this arg) = arg /\
  snd (getAudience this arg) = arg /\
  snd (getDimension this arg) = arg /\
  snd (updateVariation this arg) = arg /\
  snd (createAudience this arg) = arg /\
  snd (createDimension this arg) = arg.
Proof.
  unfold getVariation, deleteVariation, getAudience, getDimension,
    updateVariation, createAudience, createDimension.
  repeat split; untouched arg.
Qed.

Ltac written o :=
  match goal with
  | O : is_object o = true |- _ =>
      destruct o; try discriminate O; exec; cbn -[js_or append]; props;
      case_ifs; reflexivity
  end.

Lemma get_coerced_other (k k' : string) (o : value) :
  k <> k' -> get_prop (coerced k o) k' = get_prop o k'.
Proof. apply get_set_neq. Qed.

Lemma get_coerced (k : string) (o : value) :
  is_object o = true ->
  get_prop (coerced k o) k = VStr (to_string (js_or (get_prop o k) (VStr ""))).
Proof. intros O. unfold coerced. now rewrite get_set_eq. Qed.

Lemma reads_written (this : client) (o : value) :
  is_object o = true ->
  snd (getProject this o) = coerced "id" o /\
  snd (getExperiment this o) = coerced "id" o /\
  snd (deleteExperiment this o) = coerced "id" o /\
  snd (getResults this o) = coerced "id" o /\
  snd (getStats this o) = coerced "id" o /\
  snd (getExperiments this o) = coerced "project_id" o /\
  snd (getAudiences this o) = with_default "id" (VStr "") o /\
  snd (getDimensions this o) = with_default "id" (VStr "") o /\
  snd (getGoals this o) = with_default "id" (VStr "") o.
Proof.
  intros O.
  unfold getProject, getExperiment, deleteExperiment, getResults, getStats,
    getExperiments, getAudiences, getDimensions, getGoals, coerced,
    with_default.
  repeat split; written o.
Qed.

(** X4.  The reads, the delete and the lists that normalise their
    identifier write it back: given an object, [getProject],
    [getExperiment], [deleteExperiment], [getResults], [getStats] and
    [getExperiments] leave the caller's object with the identifier replaced
    by its string form, and [getAudiences], [getDimensions] and [getGoals]
    leave it with an absent or falsy [id] replaced by [""], whether they
    throw or return.  Nothing else in the object changes.  The numbers of
    the object are safe integers. *)
Theorem reads_write_identifier_back (this : client) (o : value) :
  safe o = true ->
  is_object o = true ->
  (snd (getProject this o) = coerced "id" o /\
   snd (getExperiment this o) = coerced "id" o /\
   snd (deleteExperiment this o) = coerced "id" o /\
   snd (getResults this o) = coerced "id" o /\
   snd (getStats this o) = coerced "id" o /\
   snd (getExperiments this o) = coerced "project_id" o /\
   snd (getAudiences this o) = with_default "id" (VStr "") o /\
   snd (getDimensions this o) = with_default "id" (VStr "") o /\
   snd (getGoals this o) = with_default "id" (VStr "") o) /\
  (forall k,
     typeof (get_prop (coerced k o) k) = "string" /\
     (truthy (get_prop o k) = true ->
      get_prop (with_default k (VStr "") o) k = get_prop o k) /\
     forall k', k <> k' ->
       get_prop (coerced k o) k' = get_prop o k' /\
       get_prop (with_default k (VStr "") o) k' = get_prop o k').
Proof.
  intros _ O. split.
  - now apply reads_written.
  - intros k. split; [now rewrite get_coerced|]. split.
    + intros T. rewrite get_with_default_eq by exact O.
      now apply js_or_truthy.
    + intros k' N. split;
        [now apply get_coerced_other | now apply get_with_default_neq].
Qed.

Lemma reads_write_identifier_back_witness :
  snd (getProject demo (VObj [("id", VNum 5); ("note", VStr "n")])) =
  VObj [("id", VStr "5"); ("note", VStr "n")].
Proof.
  exact (proj1 (proj1
    (@reads_write_identifier_back demo
       (VObj [("id", VNum 5); ("note", VStr "n")]) eq_refl eq_refl))).
Defined.

Lemma assign_assign (k : string) (v w : value) (ps : props_t) :
  assign k v (assign k w ps) = assign k v ps.
Proof.
  induction ps as [|[k' v'] ps IH]; simpl.
  - now rewrite String.eqb_refl.
  - destruct (k' =? k)%string eqn:E; simpl.
    + now rewrite String.eqb_refl.
    + now rewrite E, IH.
Qed.

Lemma set_prop_twice (o : value) (k : string) (v w : value) :
  set_prop (set_prop o k w) k v = set_prop o k v.
Proof. destruct o; trivial; simpl; now rewrite assign_assign. Qed.

Lemma String_or_empty (x : value) :
  js_or (String_ x) (VStr "") = String_ x.
Proof.
  unfold js_or, String_. cbn [truthy].
  destruct (to_string x =? "")%string eqn:E; trivial.
  apply String.eqb_eq in E. now rewrite E.
Qed.

Lemma String_String (x : value) : String_ (String_ x) = String_ x.
Proof. reflexivity. Qed.

Lemma or_empty_twice (a : value) :
  js_or (js_or a (VStr "")) (VStr "") = js_or a (VStr "").
Proof. unfold js_or. destruct (truthy a) eqn:T; [now rewrite T | trivial]. Qed.

Lemma coerced_twice (k : string) (o : value) :
  is_object o = true -> coerced k (coerced k o) = coerced k o.
Proof.
  intros O. unfold coerced at 1. rewrite get_coerced by exact O.
  change (VStr (to_string (js_or (get_prop o k) (VStr ""))))
    with (String_ (js_or (get_prop o k) (VStr ""))).
  rewrite String_or_empty.
  change (String_ (String_ (js_or (get_prop o k) (VStr ""))))
    with (String_ (js_or (get_prop o k) (VStr ""))).
  apply set_prop_twice.
Qed.

Lemma with_default_twice (k : string) (d o : value) :
  is_object o = true ->
  truthy d = false ->
  with_default k d (with_default k d o) = with_default k d o.
Proof.
  intros O D. unfold with_default at 1.
  rewrite get_with_default_eq by exact O.
  assert (E : js_or (js_or (get_prop o k) d) d = js_or (get_prop o k) d).
  { unfold js_or. destruct (truthy (get_prop o k)) eqn:T.
    - now rewrite T.
    - now rewrite D. }
  rewrite E. apply set_prop_twice.
Qed.

(** The outcome of a read depends on the object only through the
    identifier it tests and, for results and statistics, the filter. *)
Ltac settle_ifs :=
  repeat (progress (cbn -[js_or append]; props;
                    rewrite ?String_or_empty, ?String_String,
                      ?or_empty_twice));
  repeat (match goal with
          | |- context [if ?c then _ else _] =>
              lazymatch c with
              | context [if _ then _ else _] => fail
              | _ => destruct c eqn:?
              end
          end;
          repeat (progress (cbn -[js_or append]; props;
                            rewrite ?String_or_empty, ?String_String,
                              ?or_empty_twice))).

Ltac same_outcome o :=
  match goal with
  | O : is_object o = true |- _ =>
      destruct o; try discriminate O; exec; settle_ifs;
      try reflexivity; try congruence
  end.

Section Repeated.

Variable this : client.
Variable o : value.
Hypothesis object : is_object o = true.

Lemma getProject_again :
  fst (getProject this (coerced "id" o)) = fst (getProject this o).
Proof. unfold getProject, coerced. same_outcome o. Qed.

Lemma getExperiment_again :
  fst (getExperiment this (coerced "id" o)) = fst (getExperiment this o).
Proof. unfold getExperiment, coerced. same_outcome o. Qed.

Lemma deleteExperiment_again :
  fst (deleteExperiment this (coerced "id" o)) = fst (deleteExperiment this o).
Proof. unfold deleteExperiment, coerced. same_outcome o. Qed.

Lemma getExperiments_again :
  fst (getExperiments this (coerced "project_id" o)) =
  fst (getExperiments this o).
Proof. unfold getExperiments, coerced. same_outcome o. Qed.

Lemma getResults_again :
  fst (getResults this (coerced "id" o)) = fst (getResults this o).
Proof. unfold getResults, coerced. same_outcome o. Qed.

Lemma getStats_again :
  fst (getStats this (coerced "id" o)) = fst (getStats this o).
Proof. unfold getStats, coerced. same_outcome o. Qed.

Lemma getAudiences_again :
  fst (getAudiences this (with_default "id" (VStr "") o)) =
  fst (getAudiences this o).
Proof. unfold getAudiences, with_default. same_outcome o. Qed.

Lemma getDimensions_again :
  fst (getDimensions this (with_default "id" (VStr "") o)) =
  fst (getDimensions this o).
Proof. unfold getDimensions, with_default. same_outcome o. Qed.

Lemma getGoals_again :
  fst (getGoals this (with_default "id" (VStr "") o)) =
  fst (getGoals this o).
Proof. unfold getGoals, with_default. same_outcome o. Qed.

End Repeated.

(** X5.  Repeating a read on the same object changes nothing further: the
    second call of [getProject], [getExperiment], [deleteExperiment],
    [getResults], [getStats], [getExperiments], [getAudiences],
    [getDimensions] or [getGoals] on the object the first call left behind
    has the outcome of the first (the same error, or the same request) and
    leaves the object as the first call left it. *)
Theorem reads_repeatable (this : client) (o : value) :
  is_object o = true ->
  let again (operation : client -> value -> outcome * value) :=
    operation this (snd (operation this o)) = operation this o in
  again getProject /\ again getExperiment /\ again deleteExperiment /\
  again getResults /\ again getStats /\ again getExperiments /\
  again getAudiences /\ again getDimensions /\ again getGoals.
Proof.
  intros O again; subst again; cbv beta.
  destruct (reads_written this o O)
    as (P & E & D & R & S & L & A & M & G).
  assert (C : is_object (coerced "id" o) = true)
    by (unfold coerced; now rewrite set_prop_object).
  assert (C' : is_object (coerced "project_id" o) = true)
    by (unfold coerced; now rewrite set_prop_object).
  assert (W : is_object (with_default "id" (VStr "") o) = true)
    by now rewrite with_default_object.
  destruct (reads_written this _ C)
    as (P2 & E2 & D2 & R2 & S2 & _).
  destruct (reads_written this _ C') as (_ & _ & _ & _ & _ & L2 & _).
  destruct (reads_written this _ W)
    as (_ & _ & _ & _ & _ & _ & A2 & M2 & G2).
  rewrite coerced_twice in P2, E2, D2, R2, S2, L2 by exact O.
  rewrite with_default_twice in A2, M2, G2 by trivial.
  assert (pairs : forall (p q : outcome * value),
             fst p = fst q -> snd p = snd q -> p = q)
    by (intros [] [] ; cbn; congruence).
  split; [|split; [|split; [|split; [|split; [|split; [|split; [|split]]]]]]];
    apply pairs.
  - rewrite P. now apply getProject_again.
  - now rewrite P, P2.
  - rewrite E. now apply getExperiment_again.
  - now rewrite E, E2.
  - rewrite D. now apply deleteExperiment_again.
  - now rewrite D, D2.
  - rewrite R. now apply getResults_again.
  - now rewrite R, R2.
  - rewrite S. now apply getStats_again.
  - now rewrite S, S2.
  - rewrite L. now apply getExperiments_again.
  - now rewrite L, L2.
  - rewrite A. now apply getAudiences_again.
  - now rewrite A, A2.
  - rewrite M. now apply getDimensions_again.
  - now rewrite M, M2.
  - rewrite G. now apply getGoals_again.
  - now rewrite G, G2.
Qed.

Lemma reads_repeatable_witness :
  getProject demo (snd (getProject demo (VObj [("id", VNum 5)]))) =
  getProject demo (VObj [("id", VNum 5)]).
Proof.
  exact (proj1 (@reads_repeatable demo (VObj [("id", VNum 5)]) eq_refl)).
Defined.


(** ** Calling twice with the same object *)

Lemma get_createExperiment_options (o : value) (k : string) :
  is_object o = true ->
  In k ["description"; "project_id"; "edit_url"; "custom_css"; "custom_js"] ->
  get_prop (createExperiment_options o) k = js_or (get_prop o k) (VStr "").
Proof.
  intros O K. unfold createExperiment_options.
  destruct K as [<- | [<- | [<- | [<- | [<- | []]]]]];
    repeat first
      [ rewrite get_with_default_eq
          by (rewrite ?with_default_object; exact O)
      | rewrite get_with_default_neq by discriminate ];
    reflexivity.
Qed.

Lemma createExperiment_options_object (o : value) :
  is_object (createExperiment_options o) = is_object o.
Proof.
  unfold createExperiment_options. now rewrite !with_default_object.
Qed.

Lemma updateExperiment_options_object (o : value) :
  is_object (updateExperiment_options o) = is_object o.
Proof.
  unfold updateExperiment_options.
  now rewrite !with_default_object, set_prop_object.
Qed.

Lemma get_updateExperiment_options (o : value) (k : string) :
  is_object o = true ->
  In k ["description"; "edit_url"; "custom_css"; "custom_js"] ->
  get_prop (updateExperiment_options o) k = js_or (get_prop o k) (VStr "").
Proof.
  intros O K.
  assert (O' : is_object (set_prop o "id"
                 (String_ (js_or (get_prop o "id") (VStr "")))) = true)
    by (now rewrite set_prop_object).
  unfold updateExperiment_options.
  destruct K as [<- | [<- | [<- | [<- | []]]]];
    repeat first
      [ rewrite get_with_default_eq
          by (rewrite ?with_default_object; exact O')
      | rewrite get_with_default_neq by discriminate ];
    rewrite get_set_neq by discriminate; reflexivity.
Qed.

Lemma get_updateExperiment_options_other (o : value) (k : string) :
  ~ In k ["id"; "description"; "edit_url"; "custom_css"; "custom_js"] ->
  get_prop (updateExperiment_options o) k = get_prop o k.
Proof.
  intros N. cbn in N. unfold updateExperiment_options.
  rewrite !get_with_default_neq by (intros <-; tauto).
  rewrite get_set_neq by (intros <-; tauto). reflexivity.
Qed.

(** X6.  [createExperiment], [updateExperiment] and [createVariation] use
    up the options they are given: each deletes the identifier it sent in
    the path, so a second call with the same object throws the validation
    error for that identifier. *)
Theorem second_call_throws (this : client) (o : value) :
  is_object o = true ->
  let supplied k := truthy (get_prop o k) = true in
  let twice (operation : client -> value -> outcome * value) :=
    fst (operation this (snd (operation this o))) in
  (supplied "edit_url" -> supplied "project_id" ->
   (exists d, fst (createExperiment this o) = Returned d) /\
   twice createExperiment = Threw (Error "Required: options.project_id")) /\
  (supplied "id" -> to_string (get_prop o "id") <> "" ->
   (exists d, fst (updateExperiment this o) = Returned d) /\
   twice updateExperiment = Threw (Error "required: options.id")) /\
  (supplied "experiment_id" ->
   to_string (get_prop o "experiment_id") <> "" ->
   (exists d, fst (createVariation this o) = Returned d) /\
   twice createVariation = Threw (Error "Required: options.experiment_id")).
Proof.
  intros O supplied twice; subst supplied twice; cbv beta.
  split; [|split].
  - intros E P.
    rewrite (@createExperiment_object this o O). cbv zeta.
    rewrite E, P. cbn [negb fst snd]. split; [eauto|].
    set (o2 := del_prop (createExperiment_options o) "project_id").
    assert (O2 : is_object o2 = true)
      by (unfold o2;
          now rewrite del_prop_object, createExperiment_options_object).
    rewrite (@createExperiment_object this o2 O2). cbv zeta.
    assert (E2 : truthy (get_prop o2 "edit_url") = true).
    { unfold o2. rewrite get_del_neq by discriminate.
      rewrite get_createExperiment_options by (trivial; cbn; tauto).
      now rewrite js_or_truthy. }
    assert (P2 : truthy (get_prop o2 "project_id") = false)
      by (unfold o2; now rewrite get_del_eq).
    now rewrite E2, P2.
  - intros I N.
    rewrite (@updateExperiment_object this o O). cbv zeta.
    rewrite (js_or_truthy _ _ I), truthy_String.
    apply String.eqb_neq in N. rewrite N. cbn [negb fst snd].
    split; [eauto|].
    set (o2 := del_prop (updateExperiment_options o) "id").
    assert (O2 : is_object o2 = true)
      by (unfold o2;
          now rewrite del_prop_object, updateExperiment_options_object).
    rewrite (@updateExperiment_object this o2 O2). cbv zeta.
    assert (I2 : get_prop o2 "id" = VUndef)
      by (unfold o2; apply get_del_eq).
    rewrite I2. reflexivity.
  - intros I N.
    rewrite (@createVariation_object this o O). cbv zeta.
    rewrite (js_or_truthy _ _ I), truthy_String.
    apply String.eqb_neq in N. rewrite N. cbn [negb fst snd].
    split; [eauto|].
    set (o2 := del_prop (createVariation_options o) "experiment_id").
    assert (O2 : is_object o2 = true).
    { unfold o2, createVariation_options.
      now rewrite del_prop_object, with_default_object, set_prop_object. }
    rewrite (@createVariation_object this o2 O2). cbv zeta.
    assert (I2 : get_prop o2 "experiment_id" = VUndef)
      by (unfold o2; apply get_del_eq).
    rewrite I2. reflexivity.
Qed.

Lemma second_call_throws_witness :
  fst (createExperiment demo (snd (createExperiment demo sample_experiment)))
  = Threw (Error "Required: options.project_id").
Proof.
  exact (proj2 (proj1
    (@second_call_throws demo sample_experiment eq_refl) eq_refl eq_refl)).
Defined.

(** X7.  An upsert of an experiment is not repeatable with the same object:
    [pushExperiment] of an object with [id], [edit_url] and [project_id]
    updates the experiment and deletes [id] from the object, so pushing the
    same object again creates a new experiment under the project.
    [pushVariation] leaves an object with [id] as it is, and pushing it
    again repeats the update.  The numbers of the object are safe
    integers. *)
Theorem push_twice (this : client) (o : value) :
  safe o = true ->
  truthy (get_prop o "id") = true ->
  (to_string (get_prop o "id") <> "" ->
   truthy (get_prop o "edit_url") = true ->
   truthy (get_prop o "project_id") = true ->
   (exists body,
      fst (pushExperiment this o) =
      Returned
        (rest_put this
           (at_base this ("experiments/" ++ to_string (get_prop o "id")))
           "put" body)) /\
   (exists body,
      fst (pushExperiment this (snd (pushExperiment this o))) =
      Returned
        (rest_post this
           (at_base this
              ("projects/" ++ to_string (get_prop o "project_id")
               ++ "/experiments/"))
           "post" body))) /\
  pushVariation this (snd (pushVariation this o)) = pushVariation this o.
Proof.
  intros _ I.
  assert (O : is_object o = true) by (eapply truthy_is_object; exact I).
  split.
  - intros N E P.
    rewrite (@pushExperiment_update this o I).
    rewrite (@updateExperiment_object this o O). cbv zeta.
    rewrite (js_or_truthy _ _ I), truthy_String.
    apply String.eqb_neq in N. rewrite N. cbn [negb fst snd].
    split; [eauto|].
    set (o2 := del_prop (updateExperiment_options o) "id").
    assert (O2 : is_object o2 = true)
      by (unfold o2;
          now rewrite del_prop_object, updateExperiment_options_object).
    assert (I2 : truthy (get_prop o2 "id") = false)
      by (unfold o2; now rewrite get_del_eq).
    rewrite (@pushExperiment_create this o2 O2 I2).
    set (o3 := set_prop o2 "id" (VStr "")).
    assert (O3 : is_object o3 = true)
      by (unfold o3; now rewrite set_prop_object).
    rewrite (@createExperiment_object this o3 O3). cbv zeta.
    assert (E3 : get_prop o3 "edit_url" = get_prop o "edit_url").
    { unfold o3, o2. rewrite get_set_neq, get_del_neq by discriminate.
      rewrite get_updateExperiment_options by (trivial; cbn; tauto).
      now apply js_or_truthy. }
    assert (P3 : get_prop o3 "project_id" = get_prop o "project_id").
    { unfold o3, o2. rewrite get_set_neq, get_del_neq by discriminate.
      apply get_updateExperiment_options_other.
      cbn. intuition discriminate. }
    rewrite E3, P3, E, P. cbn [negb fst]. eauto.
  - rewrite (@pushVariation_update this o I).
    rewrite (@updateVariation_object this o O). cbn [snd].
    rewrite (@pushVariation_update this o I).
    now rewrite (@updateVariation_object this o O).
Qed.

Lemma push_twice_witness :
  exists body,
    fst (pushExperiment demo
           (snd (pushExperiment demo
                   (VObj [("id", VStr "42"); ("edit_url", VStr "...");
                          ("project_id", VStr "1")])))) =
    Returned
      (rest_post demo (at_base demo "projects/1/experiments/") "post" body).
Proof.
  exact (proj2 (proj1
    (@push_twice demo
       (VObj [("id", VStr "42"); ("edit_url", VStr "...");
              ("project_id", VStr "1")]) eq_refl eq_refl)
    ltac:(discriminate) eq_refl eq_refl)).
Defined.

(** ** Where the reads, deletes and lists go *)

Ltac path_of o T N :=
  destruct o; try discriminate T; cbn in T, N; exec;
  repeat (progress (cbn -[append js_or]; props;
                    rewrite ?(js_or_truthy _ (VStr "") T), ?T, ?N));
  paths; reflexivity.

Section Paths.

Variable this : client.
Variable o : value.

Let got (path : string) : outcome :=
  Returned (rest_get this (at_base this path) "get").

Let deleted (path : string) : outcome :=
  Returned (rest_del this (at_base this path) "delete").

Lemma unguarded_paths :
  truthy (get_prop o "id") = true ->
  let id := to_string (get_prop o "id") in
  fst (getVariation this o) = got ("variations/" ++ id) /\
  fst (deleteVariation this o) = deleted ("variations/" ++ id) /\
  fst (getAudience this o) = got ("audiences/" ++ id) /\
  fst (getDimension this o) = got ("dimensions/" ++ id) /\
  fst (getAudiences this o) = got ("projects/" ++ id ++ "/audiences/") /\
  fst (getDimensions this o) = got ("projects/" ++ id ++ "/dimensions/") /\
  fst (getGoals this o) = got ("projects/" ++ id ++ "/goals/").
Proof.
  intros T id; subst id got deleted.
  pose proof I as N.
  unfold getVariation, deleteVariation, getAudience, getDimension,
    getAudiences, getDimensions, getGoals.
  split; [|split; [|split; [|split; [|split; [|split]]]]]; path_of o T N.
Qed.

Lemma coercing_paths :
  truthy (get_prop o "id") = true ->
  to_string (get_prop o "id") <> "" ->
  let id := to_string (get_prop o "id") in
  fst (getProject this o) = got ("projects/" ++ id) /\
  fst (getExperiment this o) = got ("experiments/" ++ id) /\
  fst (deleteExperiment this o) = deleted ("experiments/" ++ id).
Proof.
  intros T N id; subst id got deleted.
  apply String.eqb_neq in N.
  unfold getProject, getExperiment, deleteExperiment.
  split; [|split]; path_of o T N.
Qed.

Lemma getExperiments_path :
  truthy (get_prop o "project_id") = true ->
  to_string (get_prop o "project_id") <> "" ->
  fst (getExperiments this o) =
  got ("projects/" ++ to_string (get_prop o "project_id") ++ "/experiments/").
Proof.
  intros T N; subst got.
  apply String.eqb_neq in N.
  unfold getExperiments. path_of o T N.
Qed.

End Paths.

(** X8.  Given an object with an identifier, each read, delete and list
    requests the path of its resource with the identifier in string form:
    [projects/{id}], [experiments/{id}], [variations/{id}],
    [audiences/{id}], [dimensions/{id}], and under [projects/{id}/] the
    collections [experiments/], [audiences/], [dimensions/] and [goals/].
    The methods that coerce the identifier before testing it also need its
    string form not to be empty.  The numbers of the object are safe
    integers. *)
Theorem read_paths (this : client) (o : value) :
  safe o = true ->
  let got path := Returned (rest_get this (at_base this path) "get") in
  let deleted path :=
    Returned (rest_del this (at_base this path) "delete") in
  let id := to_string (get_prop o "id") in
  let project_id := to_string (get_prop o "project_id") in
  (truthy (get_prop o "id") = true ->
   fst (getVariation this o) = got ("variations/" ++ id) /\
   fst (deleteVariation this o) = deleted ("variations/" ++ id) /\
   fst (getAudience this o) = got ("audiences/" ++ id) /\
   fst (getDimension this o) = got ("dimensions/" ++ id) /\
   fst (getAudiences this o) = got ("projects/" ++ id ++ "/audiences/") /\
   fst (getDimensions this o) = got ("projects/" ++ id ++ "/dimensions/") /\
   fst (getGoals this o) = got ("projects/" ++ id ++ "/goals/") /\
   (id <> "" ->
    fst (getProject this o) = got ("projects/" ++ id) /\
    fst (getExperiment this o) = got ("experiments/" ++ id) /\
    fst (deleteExperiment this o) = deleted ("experiments/" ++ id))) /\
  (truthy (get_prop o "project_id") = true -> project_id <> "" ->
   fst (getExperiments this o) =
   got ("projects/" ++ project_id ++ "/experiments/")).
Proof.
  intros _ got deleted id project_id; subst got deleted id project_id.
  split.
  - intros T.
    destruct (unguarded_paths this o T) as (A & B & C & D & E & F & G).
    do 7 (split; [assumption|]).
    intros N. now apply coercing_paths.
  - intros T N. now apply getExperiments_path.
Qed.

Lemma read_paths_witness :
  fst (getGoals demo (VObj [("id", VNum 12)])) =
    Returned (rest_get demo (at_base demo "projects/12/goals/") "get") /\
  fst (deleteExperiment demo (VObj [("id", VNum 12)])) =
    Returned (rest_del demo (at_base demo "experiments/12") "delete").
Proof.
  destruct (proj1 (@read_paths demo (VObj [("id", VNum 12)]) eq_refl)
              eq_refl)
    as (_ & _ & _ & _ & _ & _ & G & C).
  split; [exact G|]. exact (proj2 (proj2 (C ltac:(discriminate)))).
Defined.

(** ** Results and statistics without a filter *)

(** X9.  Without a dimension filter (none given, or a falsy one),
    [getResults] and [getStats] request [experiments/{id}/results] and
    [experiments/{id}/stats] with no query, for an object carrying the
    experiment's identifier and for the bare identifier, string or
    number.  The numbers given are safe integers. *)
Theorem results_without_filter (this : client) :
  let got path := Returned (rest_get this (at_base this path) "GET") in
  (forall o,
     safe o = true ->
     is_object o = true ->
     truthy (get_prop o "id") = true ->
     to_string (get_prop o "id") <> "" ->
     truthy (get_prop o "dimension") = false ->
     let id := to_string (get_prop o "id") in
     fst (getResults this o) = got ("experiments/" ++ id ++ "/results") /\
     fst (getStats this o) = got ("experiments/" ++ id ++ "/stats")) /\
  (forall s,
     s <> "" ->
     fst (getResults this (VStr s)) =
       got ("experiments/" ++ s ++ "/results") /\
     fst (getStats this (VStr s)) = got ("experiments/" ++ s ++ "/stats")) /\
  (forall n,
     isSafeInteger n = true ->
     (n <> 0)%Z ->
     fst (getResults this (VNum n)) =
       got ("experiments/" ++ string_of_Z n ++ "/results") /\
     fst (getStats this (VNum n)) =
       got ("experiments/" ++ string_of_Z n ++ "/stats")).
Proof.
  intros got; subst got. split; [|split].
  - intros o _ O T N D id; subst id.
    rewrite (@getResults_object this o O T N),
      (@getStats_object this o O T N).
    unfold dimension_outcome. rewrite D. split; reflexivity.
  - intros s N. apply String.eqb_neq in N.
    assert (T : truthy (VStr s) = true) by (cbn; now rewrite N).
    unfold getResults, getStats.
    split; exec;
      repeat (progress (cbn -[append js_or];
                        rewrite ?(js_or_truthy _ (VStr "") T);
                        change (to_string (VStr s)) with s; rewrite ?N));
      paths; reflexivity.
  - intros n _ N.
    assert (T : truthy (VNum n) = true)
      by (cbn; apply Z.eqb_neq in N; now rewrite N).
    assert (S : (string_of_Z n =? "")%string = false).
    { apply String.eqb_neq. unfold string_of_Z.
      destruct n; try contradiction; cbn;
        destruct (Pos.to_uint p); discriminate. }
    unfold getResults, getStats.
    split; exec;
      repeat (progress (cbn -[append js_or];
                        rewrite ?(js_or_truthy _ (VStr "") T);
                        change (to_string (VNum n)) with (string_of_Z n);
                        rewrite ?S));
      paths; reflexivity.
Qed.

Lemma results_without_filter_witness :
  fst (getStats demo (VNum 7)) =
  Returned (rest_get demo (at_base demo "experiments/7/stats") "GET").
Proof.
  exact (proj2 (proj2 (proj2 (results_without_filter demo)) 7%Z
                  eq_refl ltac:(discriminate))).
Defined.

(** ** Finding by description: validation *)

Lemma getExperimentByDescription_object
    (JSON_parse : string -> option value) (this : client) (o arg1 : value) :
  is_object o = true ->
  let project_id := to_string (js_or (get_prop o "project_id") (VStr "")) in
  let description := js_or (get_prop o "description") arg1 in
  getExperimentByDescription JSON_parse this o arg1 =
  (if (project_id =? "")%string
   then Threw (Error "Required: options.project_id")
   else if negb (truthy description)
   then Threw (Error "Required: options.description")
   else
     Returned
       (Then
          (rest_get this
             (at_base this ("projects/" ++ project_id ++ "/experiments/"))
             "get")
          (by_description JSON_parse description)),
   set_prop (coerced "project_id" o) "description" description).
Proof.
  intros O project_id description; subst project_id description.
  destruct (to_string (js_or (get_prop o "project_id") (VStr "")) =? "")%string
    eqn:P;
    destruct (truthy (js_or (get_prop o "description") arg1)) eqn:D;
    unfold getExperimentByDescription, coerced;
    destruct o; try discriminate O; cbn in P, D; exec;
    repeat (progress (cbn -[append js_or getExperiments]; props;
                      rewrite ?P, ?D));
    try reflexivity.
  all: change (String_ ?x) with (VStr (to_string x));
    rewrite getExperiments_listing by (apply String.eqb_neq; exact P);
    reflexivity.
Qed.

(** X10.  [getExperimentByDescription] validates before it lists: without
    a project it throws for the project, even when the description is
    missing too, and with a project but no description, neither in the
    object nor as second argument, it throws for the description.  A
    description in the object takes precedence over the second argument.
    Afterwards the caller's object carries the project as a string and the
    description that was searched for.  A bare number is not taken for the
    project.  The numbers of the object are safe integers. *)
Theorem getExperimentByDescription_validation
    (JSON_parse : string -> option value) (this : client) (o arg1 : value) :
  safe o = true ->
  is_object o = true ->
  let result := getExperimentByDescription JSON_parse this o arg1 in
  let project := get_prop o "project_id" in
  let listed d :=
    Returned
      (Then
         (rest_get this
            (at_base this ("projects/" ++ to_string project ++ "/experiments/"))
            "get")
         (by_description JSON_parse d)) in
  (truthy project = false ->
   fst result = Threw (Error "Required: options.project_id")) /\
  (truthy project = true -> to_string project <> "" ->
   (truthy (get_prop o "description") = false -> truthy arg1 = false ->
    fst result = Threw (Error "Required: options.description")) /\
   (truthy (get_prop o "description") = true ->
    fst result = listed (get_prop o "description") /\
    get_prop (snd result) "description" = get_prop o "description") /\
   (truthy (get_prop o "description") = false -> truthy arg1 = true ->
    fst result = listed arg1 /\
    get_prop (snd result) "description" = arg1) /\
   get_prop (snd result) "project_id" = VStr (to_string project)) /\
  (forall n,
     fst (getExperimentByDescription JSON_parse this (VNum n) arg1) =
     Threw (Error "Required: options.project_id")).
Proof.
  intros _ O result project listed; subst result project listed.
  rewrite (@getExperimentByDescription_object JSON_parse this o arg1 O).
  cbv zeta.
  assert (C : is_object (coerced "project_id" o) = true)
    by (unfold coerced; now rewrite set_prop_object).
  split; [|split].
  - intros P. now rewrite (js_or_falsy _ _ P).
  - intros P N. rewrite (js_or_truthy _ _ P).
    apply String.eqb_neq in N. rewrite N. cbn [fst snd].
    split; [|split; [|split]].
    + intros D A. rewrite (js_or_falsy _ _ D), A. reflexivity.
    + intros D. rewrite (js_or_truthy _ _ D), D. cbn [negb].
      split; [reflexivity | now apply get_set_eq].
    + intros D A. rewrite (js_or_falsy _ _ D), A. cbn [negb].
      split; [reflexivity | now apply get_set_eq].
    + rewrite get_set_neq by discriminate.
      rewrite get_coerced by exact O. now rewrite (js_or_truthy _ _ P).
  - intros n. unfold getExperimentByDescription.
    destruct n; reflexivity.
Qed.

Lemma getExperimentByDescription_validation_witness :
  fst (getExperimentByDescription parse_listing_ABC demo
         (VObj [("project_id", VNum 9); ("description", VStr "B")])
         (VStr "C")) =
  Returned
    (Then
       (rest_get demo (at_base demo "projects/9/experiments/") "get")
       (by_description parse_listing_ABC (VStr "B"))).
Proof.
  exact (proj1 (proj1 (proj2 (proj1 (proj2
    (@getExperimentByDescription_validation parse_listing_ABC demo
       (VObj [("project_id", VNum 9); ("description", VStr "B")])
       (VStr "C") eq_refl eq_refl))
    eq_refl ltac:(discriminate))) eq_refl)).
Defined.

(** ** Finding by description: when the listing fails *)

Lemma scan_past (description : value) (before rest : list value) :
  forallb
    (fun e =>
       negb (is_nullish e) &&
       negb (strict_eq (get_prop e "description") description))
    before = true ->
  scan description (before ++ rest) = scan description rest.
Proof.
  induction before as [|b before IH]; trivial.
  cbn [forallb app scan]. intros H.
  apply andb_true_iff in H as [B H].
  apply andb_true_iff in B as [N M].
  apply negb_true_iff in N, M. rewrite N, M. now apply IH.
Qed.

Lemma by_description_scan (JSON_parse : string -> option value)
    (description data collection : value) :
  decoded JSON_parse data = Some collection ->
  by_description JSON_parse description data =
  scan description (for_in collection).
Proof.
  unfold by_description, decoded, is_type.
  destruct data as [| | | |text| |]; cbn; try (now intros [= <-]).
  change (to_string (VStr text)) with text. now intros ->.
Qed.

(** X11.  The promise of [getExperimentByDescription] fails in three ways.
    A rejection of the listing (a failed response, a transport error, an
    abort or a timeout) is passed on as it is, and the callback does not
    run.  A listing that arrives as text [JSON.parse] cannot decode rejects
    with its SyntaxError.  An entry that is [null] or [undefined] rejects
    with a TypeError when the scan reaches it, that is when no entry before
    it has the description; an entry with the description ends the scan,
    so what comes after it is never looked at. *)
Theorem listing_failures (JSON_parse : string -> option value)
    (t : transport) (listing : request) (description : value)
    (log : list request) (emitted : list event) :
  t listing = inr emitted ->
  let chained :=
    Then (Http listing) (by_description JSON_parse description) in
  let ends p := settle t chained log = (p, (log ++ [listing])%list) in
  let passed :=
    forallb
      (fun e =>
         negb (is_nullish e) &&
         negb (strict_eq (get_prop e "description") description)) in
  (forall r, first_resolution emitted = Rejected r -> ends (Rejected r)) /\
  (first_resolution emitted = Pending -> ends Pending) /\
  (forall text,
     first_resolution emitted = Fulfilled (VStr text) ->
     JSON_parse text = None ->
     ends (Rejected (Thrown SyntaxError))) /\
  (forall data collection before entry after,
     first_resolution emitted = Fulfilled data ->
     decoded JSON_parse data = Some collection ->
     for_in collection = (before ++ entry :: after)%list ->
     passed before = true ->
     (is_nullish entry = true -> ends (Rejected (Thrown TypeError))) /\
     (is_nullish entry = false ->
      strict_eq (get_prop entry "description") description = true ->
      ends (Fulfilled entry))).
Proof.
  intros E chained ends passed; subst chained ends passed; cbv beta.
  cbn [settle]. unfold EventEmitterPromisifier.
  rewrite E, deliver_first.
  split; [|split; [|split]].
  - now intros r ->.
  - now intros ->.
  - intros text -> P. unfold by_description, is_type. cbn [typeof].
    cbn. change (to_string (VStr text)) with text. now rewrite P.
  - intros data collection before entry after -> D F B.
    assert (S : by_description JSON_parse description data =
                scan description (entry :: after)).
    { rewrite (@by_description_scan JSON_parse description data collection
                 D), F.
      now apply scan_past. }
    rewrite S. cbn [scan]. split.
    + now intros ->.
    + now intros -> ->.
Qed.

Lemma listing_failures_witness :
  let listing := {| via := getAsync; url := "u"; method := "get";
                    headers := []; data := None |} in
  let chained :=
    Then (Http listing) (by_description parse_listing_ABC (VStr "B")) in
  settle (fun _ => inr [Fail (VStr "denied")]) chained [] =
    (Rejected (Payload (VStr "denied")), [listing]) /\
  settle
    (fun _ => inr [Success (VArr [experiment "B"; VNull] [])]) chained [] =
    (Fulfilled (experiment "B"), [listing]).
Proof.
  intros listing chained. split.
  - exact (proj1
      (@listing_failures parse_listing_ABC
         (fun _ => inr [Fail (VStr "denied")]) listing (VStr "B") []
         [Fail (VStr "denied")] eq_refl)
      (Payload (VStr "denied")) eq_refl).
  - exact (proj2 (proj2 (proj2 (proj2
      (@listing_failures parse_listing_ABC
         (fun _ => inr [Success (VArr [experiment "B"; VNull] [])])
         listing (VStr "B") []
         [Success (VArr [experiment "B"; VNull] [])] eq_refl)))
      (VArr [experiment "B"; VNull] []) (VArr [experiment "B"; VNull] [])
      [] (experiment "B") [VNull] eq_refl eq_refl eq_refl eq_refl)
      eq_refl eq_refl).
Defined.

(** ** Updates without an identifier *)

(** X12.  An update without an identifier throws the validation error, but
    not always before touching the caller's object: [updateProject],
    [updateAudience] and [updateDimension] have by then written
    [id: false] into it, and [updateExperiment] its four defaults and an
    empty [id]; only [updateVariation] leaves the object alone.  Given
    nothing, all five throw the validation error. *)
Theorem update_without_identifier (this : client) (o : value) :
  is_object o = true ->
  truthy (get_prop o "id") = false ->
  let missing := Threw (Error "required: options.id") in
  updateProject this o = (missing, set_prop o "id" (VBool false)) /\
  updateAudience this o = (missing, set_prop o "id" (VBool false)) /\
  updateDimension this o = (missing, set_prop o "id" (VBool false)) /\
  updateVariation this o = (Threw (Error "Required: options.id"), o) /\
  updateExperiment this o = (missing, updateExperiment_options o) /\
  get_prop (updateExperiment_options o) "id" = VStr "" /\
  (forall k,
     In k ["description"; "edit_url"; "custom_css"; "custom_js"] ->
     get_prop (updateExperiment_options o) k =
     js_or (get_prop o k) (VStr "")) /\
  fst (updateProject this VUndef) = missing /\
  fst (updateAudience this VUndef) = missing /\
  fst (updateDimension this VUndef) = missing /\
  fst (updateExperiment this VUndef) = missing /\
  fst (updateVariation this VUndef) = Threw (Error "Required: options.id").
Proof.
  intros O T missing; subst missing.
  rewrite (@updateProject_object this o O), (@updateAudience_object this o O),
    (@updateDimension_object this o O), (@updateVariation_object this o O),
    (@updateExperiment_object this o O).
  cbv zeta. unfold with_default.
  rewrite (js_or_falsy _ (VBool false) T), (js_or_falsy _ (VStr "") T), T.
  cbn [negb]. change (truthy (String_ (VStr ""))) with false. cbn [negb].
  do 5 (split; [reflexivity|]).
  split.
  - unfold updateExperiment_options.
    rewrite !get_with_default_neq by discriminate.
    rewrite get_set_eq by exact O. now rewrite (js_or_falsy _ _ T).
  - split; [intros k K; now apply get_updateExperiment_options|].
    repeat split.
Qed.

Lemma update_without_identifier_witness :
  updateProject demo (VObj [("project_name", VStr "x")]) =
  (Threw (Error "required: options.id"),
   VObj [("project_name", VStr "x"); ("id", VBool false)]).
Proof.
  exact (proj1
    (@update_without_identifier demo (VObj [("project_name", VStr "x")])
       eq_refl eq_refl)).
Defined.

(** ** Creating a variation *)

(** X13.  [createVariation] throws the validation error without an
    [experiment_id].  With one, it posts to
    [experiments/{experiment_id}/variations/] the caller's options without
    [experiment_id], with [description] defaulted to [""] and every other
    property as the caller gave it.  The numbers of the argument are safe
    integers. *)
Theorem createVariation_request (this : client) (arg : value) :
  safe arg = true ->
  let experiment := get_prop arg "experiment_id" in
  (truthy experiment = false ->
   fst (createVariation this arg) =
   Threw (Error "Required: options.experiment_id")) /\
  (truthy experiment = true -> to_string experiment <> "" ->
   let body := del_prop (createVariation_options arg) "experiment_id" in
   createVariation this arg =
     (Returned
        (rest_post this
           (at_base this
              ("experiments/" ++ to_string experiment ++ "/variations/"))
           "post" (JSON_stringify body)),
      body) /\
   has_prop body "experiment_id" = false /\
   get_prop body "description" =
     js_or (get_prop arg "description") (VStr "") /\
   forall k, k <> "experiment_id" -> k <> "description" ->
             get_prop body k = get_prop arg k).
Proof.
  intros _ experiment; subst experiment. split.
  - intros T. destruct (is_object arg) eqn:O.
    + rewrite (@createVariation_object this arg O). cbv zeta.
      rewrite (js_or_falsy _ _ T). reflexivity.
    + now rewrite (@createVariation_primitive this arg O).
  - intros T N body; subst body.
    assert (O : is_object arg = true) by (eapply truthy_is_object; exact T).
    rewrite (@createVariation_object this arg O). cbv zeta.
    rewrite (js_or_truthy _ _ T), truthy_String.
    apply String.eqb_neq in N. rewrite N. cbn [negb].
    split; [reflexivity|]. split; [apply has_del_eq|].
    unfold createVariation_options. split.
    + rewrite get_del_neq by discriminate.
      rewrite get_with_default_eq; [|now rewrite set_prop_object].
      now rewrite get_set_neq by discriminate.
    + intros k K1 K2.
      rewrite get_del_neq by congruence.
      rewrite get_with_default_neq by congruence.
      now rewrite get_set_neq by congruence.
Qed.

Lemma createVariation_request_witness :
  createVariation demo (VObj [("experiment_id", VNum 9); ("weight", VNum 5)])
  = (Returned
       (rest_post demo (at_base demo "experiments/9/variations/") "post"
          (JSON_stringify
             (VObj [("weight", VNum 5); ("description", VStr "")]))),
     VObj [("weight", VNum 5); ("description", VStr "")]).
Proof.
  exact (proj1 (proj2
    (@createVariation_request demo
       (VObj [("experiment_id", VNum 9); ("weight", VNum 5)]) eq_refl)
    eq_refl ltac:(discriminate))).
Defined.

(** ** Creating a project *)

Lemma with_default_fixed (k : string) (d x : value) :
  has_prop x k = true ->
  js_or (get_prop x k) d = get_prop x k ->
  with_default k d x = x.
Proof.
  intros H E. unfold with_default. rewrite E. now apply set_prop_present.
Qed.

Lemma createProject_options_object (o : value) :
  is_object (createProject_options o) = is_object o.
Proof.
  unfold createProject_options.
  now rewrite !with_default_object, set_prop_object, !with_default_object.
Qed.

Lemma or_default_twice (a d : value) :
  js_or (js_or a d) d = js_or a d.
Proof.
  unfold js_or. destruct (truthy a) eqn:T; [now rewrite T|].
  now destruct (truthy d).
Qed.

Lemma createProject_options_twice (o : value) :
  is_object o = true ->
  createProject_options (createProject_options o) = createProject_options o.
Proof.
  intros O.
  destruct o; try discriminate O;
    unfold createProject_options, with_default; cbn -[js_or];
    props; rewrite !or_default_twice;
    repeat match goal with
           | |- context [truthy (VBool ?b)] =>
               change (truthy (VBool b)) with b
           end;
    f_equal;
    repeat (rewrite assign_present; [|props; reflexivity]);
    reflexivity.
Qed.

(** X14.  [createProject] works on the caller's object too: given an
    object it leaves its four defaults in it, touches no other property,
    and what it posts is the serialization of the object as it is then.
    Nothing is used up: repeating the call with the same object posts the
    same body and leaves the object as it was after the first call.  The
    numbers of the object are safe integers. *)
Theorem createProject_repeatable (this : client) (o : value) :
  safe o = true ->
  is_object o = true ->
  let after := snd (createProject this o) in
  fst (createProject this o) =
    Returned
      (rest_post this (at_base this "projects/") "post"
         (JSON_stringify after)) /\
  after = createProject_options o /\
  (forall k,
     ~ In k ["project_name"; "project_status"; "include_jquery"; "ip_filter"]
     -> get_prop after k = get_prop o k) /\
  createProject this after = createProject this o.
Proof.
  intros _ O after; subst after.
  rewrite (createProject_object this o O). cbn [fst snd].
  split; [reflexivity|]. split; [reflexivity|]. split.
  - intros k N. cbn in N. unfold createProject_options.
    rewrite get_with_default_neq by (intros <-; tauto).
    rewrite get_set_neq by (intros <-; tauto).
    rewrite !get_with_default_neq by (intros <-; tauto).
    reflexivity.
  - rewrite createProject_object
      by (now rewrite createProject_options_object).
    now rewrite createProject_options_twice.
Qed.

Lemma createProject_repeatable_witness :
  snd (createProject demo (VObj [("project_name", VStr "site")])) =
  VObj [("project_name", VStr "site"); ("project_status", VStr "Active");
        ("include_jquery", VBool false); ("ip_filter", VStr "")].
Proof.
  exact (proj1 (proj2
    (@createProject_repeatable demo (VObj [("project_name", VStr "site")])
       eq_refl eq_refl))).
Defined.

(** ** What the body of a created experiment holds *)

Lemma json_members_keys (ps : props_t) (k : string) :
  In k (map fst (json_members ps)) -> lookup k ps <> None.
Proof.
  induction ps as [|[k' v'] ps IH]; cbn [json_members lookup]; [intros []|].
  destruct (k' =? k)%string eqn:E; [discriminate|].
  destruct (JSON_stringify v'); [|exact IH].
  cbn [map fst In]. intros [-> | H]; [|now apply IH].
  now rewrite String.eqb_refl in E.
Qed.

(** X17.  [createExperiment] forwards what it is given.  For a plain
    object with [edit_url] and [project_id], the body it posts is the JSON
    text of an object: an opening brace, members separated by commas, a
    closing brace.  Every property of the caller's object with a truthy
    value, [project_id] apart, is among the members with the serialization
    of the caller's value, and no member is named [project_id].  The
    numbers of the object are safe integers. *)
Theorem createExperiment_forwards (this : client) (ps : props_t) :
  safe (VObj ps) = true ->
  truthy (get_prop (VObj ps) "edit_url") = true ->
  truthy (get_prop (VObj ps) "project_id") = true ->
  exists r members,
    fst (createExperiment this (VObj ps)) = Returned (Http r) /\
    data r =
      Some ("{" ++
            join "," (map (fun m => json_member (fst m) (snd m)) members)
            ++ "}") /\
    ~ In "project_id" (map fst members) /\
    forall k v,
      k <> "project_id" ->
      lookup k ps = Some v ->
      truthy v = true ->
      exists s, JSON_stringify v = Some s /\ In (k, s) members.
Proof.
  intros _ E P.
  assert (O : is_object (VObj ps) = true) by reflexivity.
  rewrite (@createExperiment_object this (VObj ps) O). cbv zeta.
  rewrite E, P. cbn [negb fst].
  remember (del_prop (createExperiment_options (VObj ps)) "project_id")
    as body eqn:B.
  assert (G : forall k v, k <> "project_id" -> lookup k ps = Some v ->
                truthy v = true -> get_prop body k = v).
  { intros k v K L T. subst body.
    rewrite get_del_neq by congruence.
    assert (A : get_prop (VObj ps) k = v) by (cbn; now rewrite L).
    destruct (in_dec string_dec k
                ["description"; "project_id"; "edit_url"; "custom_css";
                 "custom_js"]) as [I | I].
    - rewrite get_createExperiment_options by assumption.
      rewrite A. now apply js_or_truthy.
    - unfold createExperiment_options. cbn in I.
      rewrite !get_with_default_neq by (intros <-; tauto). exact A. }
  assert (H : has_prop body "project_id" = false)
    by (subst body; apply has_del_eq).
  assert (F : exists fields, body = VObj fields)
    by (subst body; cbn; eauto).
  destruct F as [fields ->]. clear B.
  unfold rest_post. eexists. exists (json_members fields).
  split; [reflexivity|]. cbn [data].
  split; [apply JSON_stringify_object|]. split.
  - intros M. apply json_members_keys in M.
    cbn in H. destruct (lookup "project_id" fields) as [x|];
      [discriminate H | now apply M].
  - intros k v K L T.
    destruct (truthy_serializes v T) as [s S]. exists s.
    split; [exact S|].
    apply json_members_lookup with (v := v); [|exact S].
    specialize (G k v K L T). cbn in G.
    destruct (lookup k fields) as [x|]; [now subst|].
    subst v. discriminate T.
Qed.

Lemma createExperiment_forwards_witness :
  exists r members,
    fst (createExperiment demo
           (VObj [("edit_url", VStr "u"); ("project_id", VNum 1);
                  ("status", VStr "Paused")])) = Returned (Http r) /\
    In ("status", json_quote "Paused") members /\
    data r =
      Some ("{" ++
            join "," (map (fun m => json_member (fst m) (snd m)) members)
            ++ "}").
Proof.
  destruct (@createExperiment_forwards demo
              [("edit_url", VStr "u"); ("project_id", VNum 1);
               ("status", VStr "Paused")] eq_refl eq_refl eq_refl)
    as (r & members & R & D & _ & F).
  exists r, members. split; [exact R|]. split; [|exact D].
  destruct (F "status" (VStr "Paused") ltac:(discriminate) eq_refl eq_refl)
    as (s & S & I).
  injection S as <-. exact I.
Defined.
